(** * Layout extraction of PathogenLayoutExtensions.cpp

    A shallow embedding of [src/PathogenLayoutExtensions.cpp]: the record
    layout and vtable layout structures, the ordered insertion of fields,
    the extraction entry point [pathogen_GetRecordLayout] and the size
    introspection helper [pathogen_GetTypeSizes].

    The AST of the compiler the extension is linked into is not part of the
    source file.  Everything the code reads from it is an input of the model:
    a cursor carries the answers the code obtains from the declaration, from
    the record layout computed for it and from the vtable builders. *)

From Stdlib Require Import ZArith Lia.
From stdpp Require Import base list strings sorting.

(** ** Fixed-width integers

    Values of the C++ integer types are integers of [Z]; a conversion to a
    type of [w] bits is written out where the source converts. *)

Definition to_unsigned (w : Z) (z : Z) : Z := (z mod 2 ^ w)%Z.

Definition to_signed (w : Z) (z : Z) : Z :=
  ((z + 2 ^ (w - 1)) mod 2 ^ w - 2 ^ (w - 1))%Z.

Definition int32_t (z : Z) : Z := to_signed 32 z.
Definition int64_t (z : Z) : Z := to_signed 64 z.
Definition uint64_t (z : Z) : Z := to_unsigned 64 z.
Definition unsigned_int (z : Z) : Z := to_unsigned 32 z.

Definition INT64_MIN : Z := (- 2 ^ 63)%Z.
Definition INT64_MAX : Z := (2 ^ 63 - 1)%Z.

(** ** Handles into the AST

    A declaration is identified by a number (its address in the source); a
    null pointer to a declaration is [None]. *)

Definition DeclId := nat.
Definition DeclPtr := option DeclId.

Inductive QualType : Type :=
  | VoidPtrTy
  | PointerType (pointee : QualType)
  | RecordType (decl : DeclId)
  | OtherType (spelling : string)
  | DependentType (spelling : string).

#[global] Instance QualType_eq_dec : EqDecision QualType.
Proof. solve_decision. Defined.

(** [baseType->getAsCXXRecordDecl()] *)
Definition getAsCXXRecordDecl (t : QualType) : DeclPtr :=
  match t with
  | RecordType d => Some d
  | _ => None
  end.

(** [type->isDependentType()] *)
Definition isDependentType (t : QualType) : bool :=
  match t with
  | DependentType _ => true
  | _ => false
  end.

(** [CXType]: the zero value of a value-initialized struct, or the handle
    [cxtype::MakeCXType] makes of a type. *)
Inductive CXType : Type :=
  | CXType_zero
  | MakeCXType (t : QualType).

(** [CXCursor]: the zero value, or the handle [cxcursor::MakeCXCursor] makes
    of a declaration pointer. *)
Inductive CXCursor_handle : Type :=
  | CXCursor_zero
  | MakeCXCursor (d : DeclPtr).

(** [CXString]: the characters the string refers to ([createRef]) or owns
    ([createDup]); the zero value has none. *)
Inductive CXString : Type :=
  | CXString_zero
  | createRef (s : string)
  | createDup (s : string).

#[global] Instance CXType_eq_dec : EqDecision CXType.
Proof. solve_decision. Defined.
#[global] Instance CXCursor_handle_eq_dec : EqDecision CXCursor_handle.
Proof. solve_decision. Defined.
#[global] Instance CXString_eq_dec : EqDecision CXString.
Proof. solve_decision. Defined.

(** ** Record fields *)

Inductive PathogenRecordFieldKind : Type :=
  | Normal
  | VTablePtr
  | NonVirtualBase
  | VirtualBaseTablePtr
  | VTorDisp
  | VirtualBase.

#[global] Instance PathogenRecordFieldKind_eq_dec : EqDecision PathogenRecordFieldKind.
Proof. solve_decision. Defined.

(** [struct PathogenRecordField].  The [NextField] link is the tail of the
    list the node stands in. *)
Record PathogenRecordField : Type := mkField {
  Kind : PathogenRecordFieldKind;
  Offset : Z;
  Name : CXString;
  Type_ : CXType;
  FieldDeclaration : CXCursor_handle;
  IsBitField : bool;
  BitFieldStart : Z;
  BitFieldWidth : Z;
  IsPrimaryBase : bool
}.

#[global] Instance PathogenRecordField_eq_dec : EqDecision PathogenRecordField.
Proof. solve_decision. Defined.

(** [new PathogenRecordField()]: value-initialization of a struct without a
    user-provided constructor zeroes every member. *)
Definition new_PathogenRecordField : PathogenRecordField :=
  {| Kind := Normal; Offset := 0; Name := CXString_zero; Type_ := CXType_zero;
     FieldDeclaration := CXCursor_zero; IsBitField := false;
     BitFieldStart := 0; BitFieldWidth := 0; IsPrimaryBase := false |}.

Definition set_FieldDeclaration (c : CXCursor_handle) (f : PathogenRecordField) :=
  {| Kind := Kind f; Offset := Offset f; Name := Name f; Type_ := Type_ f;
     FieldDeclaration := c; IsBitField := IsBitField f;
     BitFieldStart := BitFieldStart f; BitFieldWidth := BitFieldWidth f;
     IsPrimaryBase := IsPrimaryBase f |}.

Definition set_IsBitField (b : bool) (f : PathogenRecordField) :=
  {| Kind := Kind f; Offset := Offset f; Name := Name f; Type_ := Type_ f;
     FieldDeclaration := FieldDeclaration f; IsBitField := b;
     BitFieldStart := BitFieldStart f; BitFieldWidth := BitFieldWidth f;
     IsPrimaryBase := IsPrimaryBase f |}.

Definition set_BitFieldStart (z : Z) (f : PathogenRecordField) :=
  {| Kind := Kind f; Offset := Offset f; Name := Name f; Type_ := Type_ f;
     FieldDeclaration := FieldDeclaration f; IsBitField := IsBitField f;
     BitFieldStart := z; BitFieldWidth := BitFieldWidth f;
     IsPrimaryBase := IsPrimaryBase f |}.

Definition set_BitFieldWidth (z : Z) (f : PathogenRecordField) :=
  {| Kind := Kind f; Offset := Offset f; Name := Name f; Type_ := Type_ f;
     FieldDeclaration := FieldDeclaration f; IsBitField := IsBitField f;
     BitFieldStart := BitFieldStart f; BitFieldWidth := z;
     IsPrimaryBase := IsPrimaryBase f |}.

Definition set_IsPrimaryBase (b : bool) (f : PathogenRecordField) :=
  {| Kind := Kind f; Offset := Offset f; Name := Name f; Type_ := Type_ f;
     FieldDeclaration := FieldDeclaration f; IsBitField := IsBitField f;
     BitFieldStart := BitFieldStart f; BitFieldWidth := BitFieldWidth f;
     IsPrimaryBase := b |}.

(** ** VTable entries *)

Inductive PathogenVTableEntryKind : Type :=
  | VCallOffset
  | VBaseOffset
  | OffsetToTop
  | RTTI
  | FunctionPointer
  | CompleteDestructorPointer
  | DeletingDestructorPointer
  | UnusedFunctionPointer.

#[global] Instance PathogenVTableEntryKind_eq_dec : EqDecision PathogenVTableEntryKind.
Proof. solve_decision. Defined.

(** The value of an enumerator: the first is zero, each next one more
    ([enum class PathogenVTableEntryKind : int32_t] gives none explicitly). *)
Definition PathogenVTableEntryKind_value (k : PathogenVTableEntryKind) : Z :=
  match k with
  | VCallOffset => 0
  | VBaseOffset => 1
  | OffsetToTop => 2
  | RTTI => 3
  | FunctionPointer => 4
  | CompleteDestructorPointer => 5
  | DeletingDestructorPointer => 6
  | UnusedFunctionPointer => 7
  end.

(** Modelled from the spec: the component-kind enumeration of the external
    vtable builder ([VTableComponent::Kind]), which the source names in its
    static assertions but does not declare.  The spec gives its ordinals as 0
    through 7, in the order of the assertions. *)
Inductive VTableComponent_Kind : Type :=
  | CK_VCallOffset
  | CK_VBaseOffset
  | CK_OffsetToTop
  | CK_RTTI
  | CK_FunctionPointer
  | CK_CompleteDtorPointer
  | CK_DeletingDtorPointer
  | CK_UnusedFunctionPointer.

(** Modelled from the spec: the ordinals of the external enumeration. *)
Definition VTableComponent_Kind_value (k : VTableComponent_Kind) : Z :=
  match k with
  | CK_VCallOffset => 0
  | CK_VBaseOffset => 1
  | CK_OffsetToTop => 2
  | CK_RTTI => 3
  | CK_FunctionPointer => 4
  | CK_CompleteDtorPointer => 5
  | CK_DeletingDtorPointer => 6
  | CK_UnusedFunctionPointer => 7
  end.

(** [verify_vtable_entry_kind(PATHOGEN_KIND, CLANG_KIND)]: the condition of
    the static assertion. *)
Definition verify_vtable_entry_kind
    (PATHOGEN_KIND : PathogenVTableEntryKind) (CLANG_KIND : VTableComponent_Kind) : bool :=
  (PathogenVTableEntryKind_value PATHOGEN_KIND =? VTableComponent_Kind_value CLANG_KIND)%Z.

(** [(PathogenVTableEntryKind)v]: the enumerator whose value is [v].  The
    native kinds take the values 0 to 7, so the last branch is that of 7. *)
Definition PathogenVTableEntryKind_cast (v : Z) : PathogenVTableEntryKind :=
  if (v =? 0)%Z then VCallOffset
  else if (v =? 1)%Z then VBaseOffset
  else if (v =? 2)%Z then OffsetToTop
  else if (v =? 3)%Z then RTTI
  else if (v =? 4)%Z then FunctionPointer
  else if (v =? 5)%Z then CompleteDestructorPointer
  else if (v =? 6)%Z then DeletingDestructorPointer
  else UnusedFunctionPointer.

(** A component of a vtable as the external builder hands it over: one of
    its eight makers.  An accessor for another kind than the component's
    own is never called by the source; it is given the zero value here. *)
Inductive VTableComponent : Type :=
  | MakeVCallOffset (offset : Z)
  | MakeVBaseOffset (offset : Z)
  | MakeOffsetToTop (offset : Z)
  | MakeRTTI (RD : DeclPtr)
  | MakeFunction (MD : DeclPtr)
  | MakeCompleteDtor (DD : DeclPtr)
  | MakeDeletingDtor (DD : DeclPtr)
  | MakeUnusedFunction (MD : DeclPtr).

Definition getKind (c : VTableComponent) : VTableComponent_Kind :=
  match c with
  | MakeVCallOffset _ => CK_VCallOffset
  | MakeVBaseOffset _ => CK_VBaseOffset
  | MakeOffsetToTop _ => CK_OffsetToTop
  | MakeRTTI _ => CK_RTTI
  | MakeFunction _ => CK_FunctionPointer
  | MakeCompleteDtor _ => CK_CompleteDtorPointer
  | MakeDeletingDtor _ => CK_DeletingDtorPointer
  | MakeUnusedFunction _ => CK_UnusedFunctionPointer
  end.

Definition getVCallOffset (c : VTableComponent) : Z :=
  match c with MakeVCallOffset o => o | _ => 0%Z end.
Definition getVBaseOffset (c : VTableComponent) : Z :=
  match c with MakeVBaseOffset o => o | _ => 0%Z end.
Definition getOffsetToTop (c : VTableComponent) : Z :=
  match c with MakeOffsetToTop o => o | _ => 0%Z end.
Definition getRTTIDecl (c : VTableComponent) : DeclPtr :=
  match c with MakeRTTI d => d | _ => None end.
Definition getFunctionDecl (c : VTableComponent) : DeclPtr :=
  match c with
  | MakeFunction d | MakeCompleteDtor d | MakeDeletingDtor d | MakeUnusedFunction d => d
  | _ => None
  end.

Module PathogenVTableEntry.

(** [struct PathogenVTableEntry] *)
Record t : Type := mk {
  Kind : PathogenVTableEntryKind;
  MethodDeclaration : CXCursor_handle;
  RttiType : CXCursor_handle;
  Offset : Z
}.

(** [PathogenVTableEntry(translationUnit, component)] *)
Definition new (component : VTableComponent) : t :=
  let Kind := PathogenVTableEntryKind_cast (VTableComponent_Kind_value (getKind component)) in
  let MethodDeclaration := CXCursor_zero in
  let RttiType := CXCursor_zero in
  let Offset := 0%Z in
  match Kind with
  | VCallOffset => mk Kind MethodDeclaration RttiType (getVCallOffset component)
  | VBaseOffset => mk Kind MethodDeclaration RttiType (getVBaseOffset component)
  | OffsetToTop => mk Kind MethodDeclaration RttiType (getOffsetToTop component)
  | RTTI => mk Kind MethodDeclaration (MakeCXCursor (getRTTIDecl component)) Offset
  | FunctionPointer
  | CompleteDestructorPointer
  | DeletingDestructorPointer
  | UnusedFunctionPointer =>
      mk Kind (MakeCXCursor (getFunctionDecl component)) RttiType Offset
  end.

End PathogenVTableEntry.

(** [VTableLayout]: the component sequence [vtable_components()] returns. *)
Definition VTableLayout := list VTableComponent.

Module PathogenVTable.

(** [struct PathogenVTable].  The [NextVTable] link is the tail of the
    list the table stands in. *)
Record t : Type := mk {
  EntryCount : Z;
  Entries : list PathogenVTableEntry.t
}.

(** [PathogenVTable(translationUnit, layout)]: the loop fills the entries
    of index below [EntryCount]. *)
Definition new (layout : VTableLayout) : t :=
  let components := layout in
  let EntryCount := int32_t (Z.of_nat (length components)) in
  mk EntryCount (PathogenVTableEntry.new <$> take (Z.to_nat EntryCount) components).

End PathogenVTable.

(** ** The record layout *)

(** [struct PathogenRecordLayout]: [FirstField] and [FirstVTable] are the two
    linked lists, a null pointer being the empty list. *)
Record PathogenRecordLayout : Type := mkLayout {
  FirstField : list PathogenRecordField;
  FirstVTable : list PathogenVTable.t;
  Size : Z;
  Alignment : Z;
  IsCppRecord : bool;
  NonVirtualSize : Z;
  NonVirtualAlignment : Z
}.

(** [new PathogenRecordLayout()] *)
Definition new_PathogenRecordLayout : PathogenRecordLayout :=
  {| FirstField := []; FirstVTable := []; Size := 0; Alignment := 0;
     IsCppRecord := false; NonVirtualSize := 0; NonVirtualAlignment := 0 |}.

Definition set_FirstField (l : list PathogenRecordField) (r : PathogenRecordLayout) :=
  {| FirstField := l; FirstVTable := FirstVTable r; Size := Size r;
     Alignment := Alignment r; IsCppRecord := IsCppRecord r;
     NonVirtualSize := NonVirtualSize r; NonVirtualAlignment := NonVirtualAlignment r |}.

Definition set_FirstVTable (l : list PathogenVTable.t) (r : PathogenRecordLayout) :=
  {| FirstField := FirstField r; FirstVTable := l; Size := Size r;
     Alignment := Alignment r; IsCppRecord := IsCppRecord r;
     NonVirtualSize := NonVirtualSize r; NonVirtualAlignment := NonVirtualAlignment r |}.

(** A node is linked in at the place a pointer to a link has reached: the
    nodes before it stay, the new node takes the link, the rest follows. *)
Definition splice {A : Type} (insertPoint : nat) (node : A) (l : list A) : list A :=
  take insertPoint l ++ node :: drop insertPoint l.

(** The loop of [AddField]: the number of links passed, which are those of
    the leading nodes of offset at most [offset]. *)
Fixpoint field_insertPoint (l : list PathogenRecordField) (offset : Z) : nat :=
  match l with
  | [] => 0
  | f :: rest =>
      if (Offset f <=? offset)%Z then S (field_insertPoint rest offset) else 0
  end.

(** [AddField(kind, offset, name, type)].  The pointer returned is the place
    of the new node in the list. *)
Definition AddField (kind : PathogenRecordFieldKind) (offset : Z) (name : CXString)
    (type : CXType) (this : PathogenRecordLayout) : PathogenRecordLayout * nat :=
  let insertPoint := field_insertPoint (FirstField this) offset in
  let field :=
    {| Kind := kind; Offset := offset; Name := name; Type_ := type;
       FieldDeclaration := FieldDeclaration new_PathogenRecordField;
       IsBitField := IsBitField new_PathogenRecordField;
       BitFieldStart := BitFieldStart new_PathogenRecordField;
       BitFieldWidth := BitFieldWidth new_PathogenRecordField;
       IsPrimaryBase := IsPrimaryBase new_PathogenRecordField |} in
  (set_FirstField (splice insertPoint field (FirstField this)) this, insertPoint).

(** An assignment through a pointer to a field of the layout:
    [field->member = value]. *)
Definition assign (field : nat) (upd : PathogenRecordField → PathogenRecordField)
    (this : PathogenRecordLayout) : PathogenRecordLayout :=
  set_FirstField (alter upd field (FirstField this)) this.

(** What the source reads of a field declaration. *)
Record FieldDecl : Type := mkFieldDecl {
  field_decl : DeclId;
  getName : string;
  field_getType : QualType;
  isBitField : bool;
  getBitWidthValue : Z
}.

(** [AddField(kind, offset, translationUnit, field)] *)
Definition AddField_decl (kind : PathogenRecordFieldKind) (offset : Z) (field : FieldDecl)
    (this : PathogenRecordLayout) : PathogenRecordLayout * nat :=
  let type := MakeCXType (field_getType field) in
  let '(this, ret) := AddField kind offset (createDup (getName field)) type this in
  (assign ret (set_FieldDeclaration (MakeCXCursor (Some (field_decl field)))) this, ret).

(** The loop of [AddVTableLayout]: every link is passed. *)
Fixpoint vtable_insertPoint (l : list PathogenVTable.t) : nat :=
  match l with
  | [] => 0
  | _ :: rest => S (vtable_insertPoint rest)
  end.

(** [AddVTableLayout(translationUnit, layout)] *)
Definition AddVTableLayout (layout : VTableLayout) (this : PathogenRecordLayout)
    : PathogenRecordLayout * nat :=
  let insertPoint := vtable_insertPoint (FirstVTable this) in
  let vTable := PathogenVTable.new layout in
  (set_FirstVTable (splice insertPoint vTable (FirstVTable this)) this, insertPoint).

(** ** What the code reads of the AST *)

Record CXXBaseSpecifier : Type := mkBase {
  isVirtual : bool;
  getType : QualType
}.

(** [ASTRecordLayout]: the layout metrics computed for the record.  Offsets
    of bases are asked for by the pointer to the base's declaration;
    [getVBaseOffsetsMap_hasVtorDisp vbase] is
    [getVBaseOffsetsMap().find(vbase)->second.hasVtorDisp()], the map having
    an entry for every virtual base. *)
Record ASTRecordLayout : Type := mkASTLayout {
  getSize : Z;
  getAlignment : Z;
  getNonVirtualSize : Z;
  getNonVirtualAlignment : Z;
  getPrimaryBase : DeclPtr;
  hasOwnVFPtr : bool;
  hasOwnVBPtr : bool;
  getVBPtrOffset : Z;
  getFieldOffset : nat → Z;
  getBaseClassOffset : DeclPtr → Z;
  getVBaseClassOffset : DeclPtr → Z;
  getVBaseOffsetsMap_hasVtorDisp : DeclPtr → bool
}.

Record CXXRecordDecl : Type := mkCXXRecord {
  isDynamicClass : bool;
  bases : list CXXBaseSpecifier;
  vbases : list CXXBaseSpecifier
}.

(** [RecordDecl]: [getDefinition] tells whether the definition pointer is
    non-null; [dyn_cast_CXXRecordDecl] is [dyn_cast<CXXRecordDecl>(record)]. *)
Record RecordDecl : Type := mkRecord {
  getDefinition : bool;
  fields : list FieldDecl;
  dyn_cast_CXXRecordDecl : option CXXRecordDecl
}.

Inductive Decl : Type :=
  | Decl_Record (record : RecordDecl)
  | Decl_Other.

(** [dyn_cast_or_null<RecordDecl>(declaration)] *)
Definition dyn_cast_or_null_RecordDecl (declaration : option Decl) : option RecordDecl :=
  match declaration with
  | Some (Decl_Record record) => Some record
  | _ => None
  end.

Record VPtrInfo : Type := mkVPtrInfo { FullOffsetInMDC : Z }.

(** [ASTContext], for the record the cursor names: the two ABI tests of the
    source, the width of a character in bits, the record layout and the
    answers of the two vtable contexts. *)
Record ASTContext : Type := mkContext {
  getTargetInfo_getCXXABI_isMicrosoft : bool;
  getVTableContext_isMicrosoft : bool;
  getCharWidth : Z;
  getASTRecordLayout : ASTRecordLayout;
  getVFPtrOffsets : list VPtrInfo;
  getVFTableLayout : Z → VTableLayout;
  getVTableLayout : VTableLayout
}.

Definition IsMsLayout (context : ASTContext) : bool :=
  getTargetInfo_getCXXABI_isMicrosoft context.

(** Modelled from the spec: [context.toCharUnitsFromBits(BitSize)], a
    function of the compiler, converts a bit offset to a byte offset: the
    whole characters the bits hold.  The quotient is taken on unsigned 64-bit
    values and the quantity is an [int64_t]. *)
Definition toCharUnitsFromBits (context : ASTContext) (BitSize : Z) : Z :=
  int64_t (uint64_t BitSize / getCharWidth context).

(** Modelled from the spec: [context.toBits(CharSize)], a function of the
    compiler, gives the bits of that many characters, as an [int64_t]. *)
Definition toBits (context : ASTContext) (CharSize : Z) : Z :=
  int64_t (CharSize * getCharWidth context).

(** The cursor handed to the entry point. *)
Record CXCursor : Type := mkCursor {
  clang_isDeclaration : bool;
  getCursorDecl : option Decl;
  getCursorContext : ASTContext
}.

(** ** The extraction *)

(** "Add vtable pointer" *)
Definition add_vtable_pointer (context : ASTContext) (layout : ASTRecordLayout)
    (cxxRecord : CXXRecordDecl) (ret : PathogenRecordLayout) : PathogenRecordLayout :=
  let primaryBase := getPrimaryBase layout in
  if isDynamicClass cxxRecord && negb (bool_decide (is_Some primaryBase))
     && negb (IsMsLayout context)
  then fst (AddField VTablePtr 0 (createRef "vtable_pointer")
              (MakeCXType (PointerType VoidPtrTy)) ret)
  else if hasOwnVFPtr layout
  then fst (AddField VTablePtr 0 (createRef "vftable_pointer")
              (MakeCXType (PointerType VoidPtrTy)) ret)
  else ret.

(** "Add non-virtual bases": the body of the loop, for one base, behind
    the assertion that opens it.  The assertion itself, which a build with
    [NDEBUG] leaves out, is in [add_non_virtual_base_asserting]. *)
Definition add_non_virtual_base (layout : ASTRecordLayout)
    (ret : PathogenRecordLayout) (base : CXXBaseSpecifier) : PathogenRecordLayout :=
  if isVirtual base then ret
  else
    let baseType := getType base in
    let cxType := MakeCXType baseType in
    let baseRecord := getAsCXXRecordDecl baseType in
    let isPrimary := bool_decide (baseRecord = getPrimaryBase layout) in
    let offset := getBaseClassOffset layout baseRecord in
    let '(ret, field) :=
      AddField NonVirtualBase offset
        (createRef (if isPrimary then "primary_base" else "base")) cxType ret in
    assign field (set_IsPrimaryBase isPrimary) ret.

(** "Vbptr - Microsoft C++ ABI" *)
Definition add_vbtable_pointer (layout : ASTRecordLayout)
    (ret : PathogenRecordLayout) : PathogenRecordLayout :=
  if hasOwnVBPtr layout
  then fst (AddField VirtualBaseTablePtr (getVBPtrOffset layout)
              (createRef "vbtable_pointer") (MakeCXType VoidPtrTy) ret)
  else ret.

(** "Add normal fields": the body of the loop, for the field of index
    [fieldIndex]. *)
Definition add_normal_field (context : ASTContext) (layout : ASTRecordLayout)
    (fieldIndex : nat) (field : FieldDecl) (ret : PathogenRecordLayout)
    : PathogenRecordLayout :=
  let offsetBits := getFieldOffset layout fieldIndex in
  let offsetChars := toCharUnitsFromBits context offsetBits in
  let offset := offsetChars in
  let '(ret, pathogenField) := AddField_decl Normal offset field ret in
  if isBitField field
  then
    let ret := assign pathogenField (set_IsBitField true) ret in
    let ret :=
      assign pathogenField
        (set_BitFieldStart
           (unsigned_int (uint64_t (offsetBits - uint64_t (toBits context offsetChars)))))
        ret in
    assign pathogenField (set_BitFieldWidth (getBitWidthValue field)) ret
  else ret.

Fixpoint add_normal_fields (context : ASTContext) (layout : ASTRecordLayout)
    (fieldIndex : nat) (fs : list FieldDecl) (ret : PathogenRecordLayout)
    : PathogenRecordLayout :=
  match fs with
  | [] => ret
  | field :: rest =>
      add_normal_fields context layout (S fieldIndex) rest
        (add_normal_field context layout fieldIndex field ret)
  end.

(** "Add virtual bases": the body of the loop, for one virtual base,
    behind the assertion that opens it.  The assertion itself, which a build
    with [NDEBUG] leaves out, is in [add_virtual_base_asserting]. *)
Definition add_virtual_base (layout : ASTRecordLayout)
    (ret : PathogenRecordLayout) (base : CXXBaseSpecifier) : PathogenRecordLayout :=
  let primaryBase := getPrimaryBase layout in
  let baseType := getType base in
  let baseCxType := MakeCXType baseType in
  let vbase := getAsCXXRecordDecl baseType in
  let offset := getVBaseClassOffset layout vbase in
  let ret :=
    if getVBaseOffsetsMap_hasVtorDisp layout vbase
    then fst (AddField VTorDisp (int64_t (offset - 4)) (createRef "vtordisp") baseCxType ret)
    else ret in
  let isPrimary := bool_decide (vbase = primaryBase) in
  let '(ret, field) :=
    AddField VirtualBase offset
      (createRef (if isPrimary then "primary_virtual_base" else "virtual_base"))
      baseCxType ret in
  assign field (set_IsPrimaryBase isPrimary) ret.

(** "Add VTable layouts" *)
Definition add_vtable_layouts (context : ASTContext)
    (ret : PathogenRecordLayout) : PathogenRecordLayout :=
  if getVTableContext_isMicrosoft context
  then
    foldl
      (λ ret offset,
         fst (AddVTableLayout (getVFTableLayout context (FullOffsetInMDC offset)) ret))
      ret (getVFPtrOffsets context)
  else fst (AddVTableLayout (getVTableLayout context) ret).

(** [pathogen_GetRecordLayout(cursor)], the two [assert]s compiled out as
    in a build with [NDEBUG]: [None] is the null pointer.  The function with
    the assertions in force is [pathogen_GetRecordLayout_asserting]. *)
Definition pathogen_GetRecordLayout (cursor : CXCursor) : option PathogenRecordLayout :=
  if negb (clang_isDeclaration cursor) then None
  else
    let declaration := getCursorDecl cursor in
    match dyn_cast_or_null_RecordDecl declaration with
    | None => None
    | Some record =>
        if negb (getDefinition record) then None
        else
          let context := getCursorContext cursor in
          let layout := getASTRecordLayout context in
          let cxxRecord := dyn_cast_CXXRecordDecl record in
          let ret := new_PathogenRecordLayout in
          let ret :=
            {| FirstField := FirstField ret; FirstVTable := FirstVTable ret;
               Size := getSize layout; Alignment := getAlignment layout;
               IsCppRecord := IsCppRecord ret; NonVirtualSize := NonVirtualSize ret;
               NonVirtualAlignment := NonVirtualAlignment ret |} in
          let ret :=
            match cxxRecord with
            | Some _ =>
                {| FirstField := FirstField ret; FirstVTable := FirstVTable ret;
                   Size := Size ret; Alignment := Alignment ret;
                   IsCppRecord := true; NonVirtualSize := getNonVirtualSize layout;
                   NonVirtualAlignment := getNonVirtualAlignment layout |}
            | None => ret
            end in
          let ret :=
            match cxxRecord with
            | Some cxxRecord =>
                let ret := add_vtable_pointer context layout cxxRecord ret in
                let ret := foldl (add_non_virtual_base layout) ret (bases cxxRecord) in
                add_vbtable_pointer layout ret
            | None => ret
            end in
          let ret := add_normal_fields context layout 0 (fields record) ret in
          let ret :=
            match cxxRecord with
            | Some cxxRecord => foldl (add_virtual_base layout) ret (vbases cxxRecord)
            | None => ret
            end in
          let ret :=
            match cxxRecord with
            | Some _ => add_vtable_layouts context ret
            | None => ret
            end in
          Some ret
    end.

(** ** The slots in the order of discovery

    The list the passes of the extraction insert, one after the other, each
    slot with the members it has once the assignments that follow its
    insertion are done.  The extraction is shown below to insert exactly
    these ([GetRecordLayout_Some]). *)

Definition slot (kind : PathogenRecordFieldKind) (offset : Z) (name : CXString)
    (type : CXType) : PathogenRecordField :=
  {| Kind := kind; Offset := offset; Name := name; Type_ := type;
     FieldDeclaration := CXCursor_zero; IsBitField := false;
     BitFieldStart := 0; BitFieldWidth := 0; IsPrimaryBase := false |}.

(** The ordered insertion of one node. *)
Definition insert_field (l : list PathogenRecordField) (f : PathogenRecordField)
    : list PathogenRecordField :=
  splice (field_insertPoint l (Offset f)) f l.

Definition vtable_pointer_slots (context : ASTContext) (layout : ASTRecordLayout)
    (cxxRecord : CXXRecordDecl) : list PathogenRecordField :=
  if isDynamicClass cxxRecord && negb (bool_decide (is_Some (getPrimaryBase layout)))
     && negb (IsMsLayout context)
  then [slot VTablePtr 0 (createRef "vtable_pointer") (MakeCXType (PointerType VoidPtrTy))]
  else if hasOwnVFPtr layout
  then [slot VTablePtr 0 (createRef "vftable_pointer") (MakeCXType (PointerType VoidPtrTy))]
  else [].

Definition non_virtual_base_slots (layout : ASTRecordLayout) (base : CXXBaseSpecifier)
    : list PathogenRecordField :=
  if isVirtual base then []
  else
    let baseRecord := getAsCXXRecordDecl (getType base) in
    let isPrimary := bool_decide (baseRecord = getPrimaryBase layout) in
    [set_IsPrimaryBase isPrimary
       (slot NonVirtualBase (getBaseClassOffset layout baseRecord)
          (createRef (if isPrimary then "primary_base" else "base"))
          (MakeCXType (getType base)))].

Definition vbtable_pointer_slots (layout : ASTRecordLayout) : list PathogenRecordField :=
  if hasOwnVBPtr layout
  then [slot VirtualBaseTablePtr (getVBPtrOffset layout) (createRef "vbtable_pointer")
          (MakeCXType VoidPtrTy)]
  else [].

Definition normal_field_slot (context : ASTContext) (layout : ASTRecordLayout)
    (fieldIndex : nat) (field : FieldDecl) : PathogenRecordField :=
  let offsetBits := getFieldOffset layout fieldIndex in
  let offsetChars := toCharUnitsFromBits context offsetBits in
  let f :=
    set_FieldDeclaration (MakeCXCursor (Some (field_decl field)))
      (slot Normal offsetChars (createDup (getName field))
         (MakeCXType (field_getType field))) in
  if isBitField field
  then
    set_BitFieldWidth (getBitWidthValue field)
      (set_BitFieldStart
         (unsigned_int (uint64_t (offsetBits - uint64_t (toBits context offsetChars))))
         (set_IsBitField true f))
  else f.

Fixpoint normal_field_slots (context : ASTContext) (layout : ASTRecordLayout)
    (fieldIndex : nat) (fs : list FieldDecl) : list PathogenRecordField :=
  match fs with
  | [] => []
  | field :: rest =>
      normal_field_slot context layout fieldIndex field
        :: normal_field_slots context layout (S fieldIndex) rest
  end.

Definition vtordisp_slot (layout : ASTRecordLayout) (base : CXXBaseSpecifier)
    : PathogenRecordField :=
  let vbase := getAsCXXRecordDecl (getType base) in
  slot VTorDisp (int64_t (getVBaseClassOffset layout vbase - 4)) (createRef "vtordisp")
    (MakeCXType (getType base)).

Definition virtual_base_slot (layout : ASTRecordLayout) (base : CXXBaseSpecifier)
    : PathogenRecordField :=
  let vbase := getAsCXXRecordDecl (getType base) in
  let isPrimary := bool_decide (vbase = getPrimaryBase layout) in
  set_IsPrimaryBase isPrimary
    (slot VirtualBase (getVBaseClassOffset layout vbase)
       (createRef (if isPrimary then "primary_virtual_base" else "virtual_base"))
       (MakeCXType (getType base))).

Definition virtual_base_slots (layout : ASTRecordLayout) (base : CXXBaseSpecifier)
    : list PathogenRecordField :=
  (if getVBaseOffsetsMap_hasVtorDisp layout (getAsCXXRecordDecl (getType base))
   then [vtordisp_slot layout base] else [])
  ++ [virtual_base_slot layout base].

(** The slots inserted before the virtual bases are looked at. *)
Definition slots_before_virtual_bases (context : ASTContext) (record : RecordDecl)
    : list PathogenRecordField :=
  let layout := getASTRecordLayout context in
  match dyn_cast_CXXRecordDecl record with
  | Some cxxRecord =>
      vtable_pointer_slots context layout cxxRecord
      ++ (bases cxxRecord ≫= non_virtual_base_slots layout)
      ++ vbtable_pointer_slots layout
  | None => []
  end
  ++ normal_field_slots context layout 0 (fields record).

Definition slots_of_virtual_bases (context : ASTContext) (record : RecordDecl)
    : list PathogenRecordField :=
  match dyn_cast_CXXRecordDecl record with
  | Some cxxRecord => vbases cxxRecord ≫= virtual_base_slots (getASTRecordLayout context)
  | None => []
  end.

(** The tables the vtable contexts hand over, in the order the source asks
    for them. *)
Definition vtable_layouts (context : ASTContext) : list VTableLayout :=
  if getVTableContext_isMicrosoft context
  then (λ offset, getVFTableLayout context (FullOffsetInMDC offset)) <$> getVFPtrOffsets context
  else [getVTableLayout context].

(** Non-decreasing offsets, from each node to the next. *)
Definition offset_le (a b : PathogenRecordField) : Prop := (Offset a ≤ Offset b)%Z.

Definition fields_ordered (l : list PathogenRecordField) : Prop := Sorted offset_le l.

(** ** Size introspection *)

(** The sizes [sizeof] gives on the target the code is compiled for, and the
    width in bits of [size_t], the type of a [sizeof] expression.  They
    follow from declarations of the headers the source includes. *)
Record TargetSizes : Type := mkTargetSizes {
  size_t_width : Z;
  sizeof_PathogenTypeSizes : Z;
  sizeof_PathogenRecordLayout : Z;
  sizeof_PathogenRecordField : Z;
  sizeof_PathogenVTable : Z;
  sizeof_PathogenVTableEntry : Z
}.

Module PathogenTypeSizes.

(** [struct PathogenTypeSizes]: five members of type [int]. *)
Record t : Type := mk {
  PathogenTypeSizes : Z;
  PathogenRecordLayout : Z;
  PathogenRecordField : Z;
  PathogenVTable : Z;
  PathogenVTableEntry : Z
}.

End PathogenTypeSizes.

(** An [int] has 32 bits. *)
Definition int (z : Z) : Z := to_signed 32 z.

(** [pathogen_GetTypeSizes(sizes)]: the flag returned and the structure
    [sizes] points to, as the call leaves it.  The comparison converts the
    [int] to [size_t]; each assignment converts a [size_t] to [int]. *)
Definition pathogen_GetTypeSizes (target : TargetSizes) (sizes : PathogenTypeSizes.t)
    : bool * PathogenTypeSizes.t :=
  if negb (to_unsigned (size_t_width target) (PathogenTypeSizes.PathogenTypeSizes sizes)
             =? sizeof_PathogenTypeSizes target)%Z
  then (false, sizes)
  else
    (true,
     PathogenTypeSizes.mk
       (PathogenTypeSizes.PathogenTypeSizes sizes)
       (int (sizeof_PathogenRecordLayout target))
       (int (sizeof_PathogenRecordField target))
       (int (sizeof_PathogenVTable target))
       (int (sizeof_PathogenVTableEntry target))).

(** A target whose sizes fit the types that hold them. *)
Definition target_sizes_fit (target : TargetSizes) : Prop :=
  (32 ≤ size_t_width target
   ∧ 0 ≤ sizeof_PathogenTypeSizes target < 2 ^ 31
   ∧ 0 ≤ sizeof_PathogenRecordLayout target < 2 ^ 31
   ∧ 0 ≤ sizeof_PathogenRecordField target < 2 ^ 31
   ∧ 0 ≤ sizeof_PathogenVTable target < 2 ^ 31
   ∧ 0 ≤ sizeof_PathogenVTableEntry target < 2 ^ 31)%Z.

(** The value of an [int] member. *)
Definition is_int (z : Z) : Prop := (- 2 ^ 31 ≤ z < 2 ^ 31)%Z.

(** The layout once the nodes [fs] are inserted one after the other. *)
Definition inserts (fs : list PathogenRecordField) (ret : PathogenRecordLayout)
    : PathogenRecordLayout :=
  set_FirstField (foldl insert_field (FirstField ret) fs) ret.

(** The layout the extraction returns for a defined record, told by the
    slots and tables of discovery ([GetRecordLayout_Some]). *)
Definition returned_layout (context : ASTContext) (record : RecordDecl)
    : PathogenRecordLayout :=
  let layout := getASTRecordLayout context in
  let cxxRecord := dyn_cast_CXXRecordDecl record in
  {| FirstField :=
       foldl insert_field []
         (slots_before_virtual_bases context record ++ slots_of_virtual_bases context record);
     FirstVTable :=
       PathogenVTable.new <$> match cxxRecord with Some _ => vtable_layouts context | None => [] end;
     Size := getSize layout;
     Alignment := getAlignment layout;
     IsCppRecord := match cxxRecord with Some _ => true | None => false end;
     NonVirtualSize := match cxxRecord with Some _ => getNonVirtualSize layout | None => 0 end;
     NonVirtualAlignment :=
       match cxxRecord with Some _ => getNonVirtualAlignment layout | None => 0 end |}.

(** ** Sample records *)

Definition int_type : QualType := OtherType "int".

(** [struct { int a; int b; }] of a C translation unit, 4-byte [int]. *)
Definition plain_struct : RecordDecl :=
  mkRecord true
    [mkFieldDecl 11 "a" int_type false 0; mkFieldDecl 12 "b" int_type false 0]
    None.

Definition plain_struct_layout : ASTRecordLayout :=
  mkASTLayout 8 4 0 0 None false false 0
    (λ i, 32 * Z.of_nat i)%Z (λ _, 0%Z) (λ _, 0%Z) (λ _, false).

Definition itanium_context (layout : ASTRecordLayout) (vtable : VTableLayout) : ASTContext :=
  mkContext false false 8 layout [] (λ _, []) vtable.

Definition plain_struct_cursor : CXCursor :=
  mkCursor true (Some (Decl_Record plain_struct)) (itanium_context plain_struct_layout []).

(** [struct { int a : 20; int b : 3; }]: [a] takes the bits 0 to 19, [b] the
    bits 20 to 22. *)
Definition wide_bitfield_struct : RecordDecl :=
  mkRecord true
    [mkFieldDecl 21 "a" int_type true 20; mkFieldDecl 22 "b" int_type true 3]
    None.

Definition wide_bitfield_layout : ASTRecordLayout :=
  mkASTLayout 4 4 0 0 None false false 0
    (λ i, match i with O => 0 | S _ => 20 end)%Z (λ _, 0%Z) (λ _, 0%Z) (λ _, false).

Definition wide_bitfield_cursor : CXCursor :=
  mkCursor true (Some (Decl_Record wide_bitfield_struct))
    (itanium_context wide_bitfield_layout []).

(** [struct Point { int x; int y; };] of a C++ translation unit: a class
    with neither virtual functions nor virtual bases, Itanium ABI.  The
    table is what the vtable context hands over when asked for it. *)
Definition plain_class : RecordDecl :=
  mkRecord true
    [mkFieldDecl 31 "x" int_type false 0; mkFieldDecl 32 "y" int_type false 0]
    (Some (mkCXXRecord false [] [])).

Definition plain_class_layout : ASTRecordLayout :=
  mkASTLayout 8 4 8 4 None false false 0
    (λ i, 32 * Z.of_nat i)%Z (λ _, 0%Z) (λ _, 0%Z) (λ _, false).

Definition plain_class_cursor : CXCursor :=
  mkCursor true (Some (Decl_Record plain_class))
    (itanium_context plain_class_layout [MakeOffsetToTop 0; MakeRTTI (Some 30)]).

(** [struct Shape { virtual void draw(); int id; };], Itanium ABI, 8-byte
    pointers. *)
Definition polymorphic_class : RecordDecl :=
  mkRecord true [mkFieldDecl 41 "id" int_type false 0]
    (Some (mkCXXRecord true [] [])).

Definition polymorphic_class_layout : ASTRecordLayout :=
  mkASTLayout 16 8 12 8 None true false 0
    (λ _, 64%Z) (λ _, 0%Z) (λ _, 0%Z) (λ _, false).

Definition polymorphic_class_cursor : CXCursor :=
  mkCursor true (Some (Decl_Record polymorphic_class))
    (itanium_context polymorphic_class_layout
       [MakeOffsetToTop 0; MakeRTTI (Some 40); MakeFunction (Some 42)]).

(** A class of the Microsoft ABI with a non-virtual base [50], two virtual
    bases, [51] with a vtordisp and [52] without, and two vfptr offsets. *)
Definition microsoft_class : RecordDecl :=
  mkRecord true [mkFieldDecl 53 "value" int_type false 0]
    (Some
       (mkCXXRecord true
          [mkBase false (RecordType 50); mkBase true (RecordType 51)]
          [mkBase true (RecordType 51); mkBase true (RecordType 52)])).

Definition microsoft_class_layout : ASTRecordLayout :=
  mkASTLayout 48 8 24 8 (Some 50) false true 8
    (λ _, 128%Z)
    (λ _, 0%Z)
    (λ d, if bool_decide (d = Some 51) then 28%Z else 40%Z)
    (λ d, bool_decide (d = Some 51)).

Definition microsoft_class_context : ASTContext :=
  mkContext true true 8 microsoft_class_layout
    [mkVPtrInfo 0; mkVPtrInfo 28]
    (λ offset,
       if (offset =? 0)%Z then [MakeRTTI (Some 54); MakeFunction (Some 55)]
       else [MakeRTTI (Some 54); MakeFunction (Some 56);
             MakeDeletingDtor (Some 57)])
    [].

Definition microsoft_class_cursor : CXCursor :=
  mkCursor true (Some (Decl_Record microsoft_class)) microsoft_class_context.

(** A 64-bit target. *)
Definition lp64_sizes : TargetSizes := mkTargetSizes 64 20 56 112 24 80.

(** The members of a field that no assignment of the source has set hold
    the zero of the value-initialization: the declaration and the bit-field
    flag of a slot that is not [Normal], the bit-field placement of a slot
    that is not flagged a bit-field, the primary-base flag of a slot that is
    not a base. *)
Definition zero_unless_assigned (f : PathogenRecordField) : Prop :=
  (Kind f ≠ Normal → FieldDeclaration f = CXCursor_zero ∧ IsBitField f = false)
  ∧ (IsBitField f = false → BitFieldStart f = 0%Z ∧ BitFieldWidth f = 0%Z)
  ∧ (Kind f ≠ NonVirtualBase → Kind f ≠ VirtualBase → IsPrimaryBase f = false).

(** ** The extraction with its assertions in force

    Without [NDEBUG] a failed [assert] aborts the process: the call does not
    return. *)

Inductive Asserted (A : Type) : Type :=
  | AssertionFailed (message : string)
  | Passed (a : A).

Arguments AssertionFailed {A} message.
Arguments Passed {A} a.

(** A loop whose body may abort. *)
Fixpoint asserting_foldl {A B : Type} (body : A → B → Asserted A) (a : A) (l : list B)
    : Asserted A :=
  match l with
  | [] => Passed a
  | x :: rest =>
      match body a x with
      | AssertionFailed message => AssertionFailed message
      | Passed a => asserting_foldl body a rest
      end
  end.

(** "Add non-virtual bases": the body of the loop with
    [assert(!base.getType()->isDependentType() && "...")], which comes
    before the test of [base.isVirtual()]. *)
Definition add_non_virtual_base_asserting (layout : ASTRecordLayout)
    (ret : PathogenRecordLayout) (base : CXXBaseSpecifier) : Asserted PathogenRecordLayout :=
  if negb (isDependentType (getType base))
  then Passed (add_non_virtual_base layout ret base)
  else AssertionFailed "Cannot layout class with dependent bases.".

(** "Add virtual bases": the body of the loop with
    [assert(base.isVirtual() && "...")]. *)
Definition add_virtual_base_asserting (layout : ASTRecordLayout)
    (ret : PathogenRecordLayout) (base : CXXBaseSpecifier) : Asserted PathogenRecordLayout :=
  if isVirtual base
  then Passed (add_virtual_base layout ret base)
  else AssertionFailed "Bases must be virtual.".

(** [pathogen_GetRecordLayout(cursor)] with the assertions in force. *)
Definition pathogen_GetRecordLayout_asserting (cursor : CXCursor)
    : Asserted (option PathogenRecordLayout) :=
  if negb (clang_isDeclaration cursor) then Passed None
  else
    let declaration := getCursorDecl cursor in
    match dyn_cast_or_null_RecordDecl declaration with
    | None => Passed None
    | Some record =>
        if negb (getDefinition record) then Passed None
        else
          let context := getCursorContext cursor in
          let layout := getASTRecordLayout context in
          let cxxRecord := dyn_cast_CXXRecordDecl record in
          let ret := new_PathogenRecordLayout in
          let ret :=
            {| FirstField := FirstField ret; FirstVTable := FirstVTable ret;
               Size := getSize layout; Alignment := getAlignment layout;
               IsCppRecord := IsCppRecord ret; NonVirtualSize := NonVirtualSize ret;
               NonVirtualAlignment := NonVirtualAlignment ret |} in
          let ret :=
            match cxxRecord with
            | Some _ =>
                {| FirstField := FirstField ret; FirstVTable := FirstVTable ret;
                   Size := Size ret; Alignment := Alignment ret;
                   IsCppRecord := true; NonVirtualSize := getNonVirtualSize layout;
                   NonVirtualAlignment := getNonVirtualAlignment layout |}
            | None => ret
            end in
          match
            match cxxRecord with
            | Some cxxRecord =>
                let ret := add_vtable_pointer context layout cxxRecord ret in
                match
                  asserting_foldl (add_non_virtual_base_asserting layout) ret
                    (bases cxxRecord)
                with
                | AssertionFailed message => AssertionFailed message
                | Passed ret => Passed (add_vbtable_pointer layout ret)
                end
            | None => Passed ret
            end
          with
          | AssertionFailed message => AssertionFailed message
          | Passed ret =>
              let ret := add_normal_fields context layout 0 (fields record) ret in
              match
                match cxxRecord with
                | Some cxxRecord =>
                    asserting_foldl (add_virtual_base_asserting layout) ret
                      (vbases cxxRecord)
                | None => Passed ret
                end
              with
              | AssertionFailed message => AssertionFailed message
              | Passed ret =>
                  let ret :=
                    match cxxRecord with
                    | Some _ => add_vtable_layouts context ret
                    | None => ret
                    end in
                  Passed (Some ret)
              end
          end
    end.

(** What the two assertions ask of a record: no direct base of a dependent
    type, and every base [vbases()] lists virtual. *)
Definition assertions_hold (record : RecordDecl) : bool :=
  match dyn_cast_CXXRecordDecl record with
  | Some cxxRecord =>
      forallb (λ base, negb (isDependentType (getType base))) (bases cxxRecord)
      && forallb isVirtual (vbases cxxRecord)
  | None => true
  end.

(** ** More sample records *)

(** [struct Plain { int tag; }; struct Dynamic { virtual void f(); };
    struct Derived : Plain, Dynamic { int value; };], Itanium ABI: the
    dynamic base is the primary base and is laid out first, at offset 0,
    the base declared first behind it, at offset 8. *)
Definition reordered_class : RecordDecl :=
  mkRecord true [mkFieldDecl 73 "value" int_type false 0]
    (Some
       (mkCXXRecord true
          [mkBase false (RecordType 71); mkBase false (RecordType 72)] [])).

Definition reordered_class_layout : ASTRecordLayout :=
  mkASTLayout 16 8 16 8 (Some 72) false false 0
    (λ _, 96%Z)
    (λ d, if bool_decide (d = Some 71) then 8%Z else 0%Z)
    (λ _, 0%Z) (λ _, false).

Definition reordered_class_cursor : CXCursor :=
  mkCursor true (Some (Decl_Record reordered_class))
    (itanium_context reordered_class_layout
       [MakeOffsetToTop 0; MakeRTTI (Some 70); MakeFunction (Some 74)]).

(** [struct Interface { virtual void f(); };
    struct Impl : virtual Interface { int x; };], Itanium ABI: the virtual
    base has no data and is the primary base, at offset 0. *)
Definition primary_virtual_base_class : RecordDecl :=
  mkRecord true [mkFieldDecl 82 "x" int_type false 0]
    (Some (mkCXXRecord true [mkBase true (RecordType 81)] [mkBase true (RecordType 81)])).

Definition primary_virtual_base_layout : ASTRecordLayout :=
  mkASTLayout 16 8 12 8 (Some 81) false false 0
    (λ _, 64%Z) (λ _, 0%Z) (λ _, 0%Z) (λ _, false).

Definition primary_virtual_base_cursor : CXCursor :=
  mkCursor true (Some (Decl_Record primary_virtual_base_class))
    (itanium_context primary_virtual_base_layout
       [MakeVBaseOffset 0; MakeOffsetToTop 0; MakeRTTI (Some 80); MakeFunction (Some 83)]).

(** [template <class T> struct Mixin : T { int x; };]: the pattern of the
    template has a base of a dependent type. *)
Definition dependent_base_class : RecordDecl :=
  mkRecord true [mkFieldDecl 92 "x" int_type false 0]
    (Some (mkCXXRecord false [mkBase false (DependentType "T")] [])).

Definition dependent_base_cursor : CXCursor :=
  mkCursor true (Some (Decl_Record dependent_base_class))
    (itanium_context plain_class_layout []).

(** A cursor to a declaration that is not a record, and a cursor to a
    record that is declared only. *)
Definition function_cursor : CXCursor :=
  mkCursor true (Some Decl_Other) (itanium_context plain_struct_layout []).

Definition forward_declared_cursor : CXCursor :=
  mkCursor true (Some (Decl_Record (mkRecord false [] None)))
    (itanium_context plain_struct_layout []).

(** ** Lists and links *)

Section splice.
Context {A : Type}.
Implicit Types (l : list A) (x : A) (i : nat).

Lemma splice_nil i x : splice i x [] = [x].
Proof. unfold splice. by rewrite take_nil, drop_nil. Qed.

Lemma splice_0 x l : splice 0 x l = x :: l.
Proof. reflexivity. Qed.

Lemma splice_S i x y l : splice (S i) x (y :: l) = y :: splice i x l.
Proof. reflexivity. Qed.

Lemma splice_perm i x l : splice i x l ≡ₚ x :: l.
Proof.
  unfold splice. rewrite <- Permutation_middle.
  by rewrite take_drop.
Qed.

Lemma splice_length i x l : length (splice i x l) = S (length l).
Proof. by rewrite splice_perm. Qed.

Lemma splice_end x l : splice (length l) x l = l ++ [x].
Proof. unfold splice. by rewrite firstn_all, drop_all. Qed.

Lemma alter_splice (f : A → A) i x l :
  i ≤ length l → alter f i (splice i x l) = splice i (f x) l.
Proof.
  revert l. induction i as [|i IH]; intros l Hi.
  - reflexivity.
  - destruct l as [|y l]; simpl in Hi; [lia|].
    rewrite !splice_S. simpl. f_equal. apply IH. lia.
Qed.

Lemma splice_lookup i x l : i ≤ length l → splice i x l !! i = Some x.
Proof.
  intros Hi. unfold splice.
  rewrite lookup_app_r by (rewrite length_take; lia).
  rewrite length_take. replace (i - i `min` length l) with 0 by lia. done.
Qed.
End splice.

(** ** Ordered insertion *)

Lemma field_insertPoint_le l offset : field_insertPoint l offset ≤ length l.
Proof.
  induction l as [|f l IH]; simpl; [lia|].
  destruct (Offset f <=? offset)%Z; simpl; lia.
Qed.

Lemma insert_field_nil f : insert_field [] f = [f].
Proof. reflexivity. Qed.

Lemma insert_field_cons h l f :
  insert_field (h :: l) f =
  if (Offset h <=? Offset f)%Z then h :: insert_field l f else f :: h :: l.
Proof.
  unfold insert_field. simpl.
  destruct (Offset h <=? Offset f)%Z; reflexivity.
Qed.

Lemma insert_field_perm l f : insert_field l f ≡ₚ f :: l.
Proof. apply splice_perm. Qed.

Lemma insert_field_HdRel h l f :
  offset_le h f → HdRel offset_le h l → HdRel offset_le h (insert_field l f).
Proof.
  intros Hf Hl. destruct l as [|x l].
  - by constructor.
  - rewrite insert_field_cons. inversion_clear Hl.
    destruct (Offset x <=? Offset f)%Z; by constructor.
Qed.

Lemma insert_field_ordered l f : fields_ordered l → fields_ordered (insert_field l f).
Proof.
  unfold fields_ordered. induction l as [|h l IH]; intros Hl.
  - rewrite insert_field_nil. by repeat constructor.
  - rewrite insert_field_cons. inversion_clear Hl as [|? ? Hs Hh].
    destruct (Z.leb_spec (Offset h) (Offset f)) as [Hle|Hgt].
    + constructor; [by apply IH|]. by apply insert_field_HdRel.
    + constructor; [by constructor|]. constructor. unfold offset_le. lia.
Qed.

Lemma foldl_insert_field_ordered fs l :
  fields_ordered l → fields_ordered (foldl insert_field l fs).
Proof.
  revert l. induction fs as [|f fs IH]; intros l Hl; simpl; [done|].
  by apply IH, insert_field_ordered.
Qed.

Lemma foldl_insert_field_perm fs l : foldl insert_field l fs ≡ₚ l ++ fs.
Proof.
  revert l. induction fs as [|f fs IH]; intros l; simpl.
  - by rewrite app_nil_r.
  - rewrite IH, insert_field_perm. simpl. apply Permutation_middle.
Qed.

(** Equal offsets keep the order of discovery: the new node goes behind
    every node of an offset at most its own. *)
Lemma insert_field_split l f :
  ∃ l1 l2, l = l1 ++ l2 ∧ insert_field l f = l1 ++ f :: l2
    ∧ Forall (λ g, Offset g ≤ Offset f)%Z l1
    ∧ (∀ g, head l2 = Some g → Offset f < Offset g)%Z.
Proof.
  induction l as [|h l (l1 & l2 & -> & Hins & Hl1 & Hl2)].
  - exists [], []. repeat split; [constructor | done].
  - rewrite insert_field_cons.
    destruct (Z.leb_spec (Offset h) (Offset f)) as [Hle|Hgt].
    + exists (h :: l1), l2. rewrite Hins. repeat split; [by constructor | done].
    + exists [], (h :: l1 ++ l2). repeat split; [constructor|].
      intros g [= <-]. lia.
Qed.

(** ** The passes insert the slots of discovery *)

Lemma inserts_nil ret : inserts [] ret = ret.
Proof. by destruct ret. Qed.

Lemma inserts_app fs gs ret : inserts (fs ++ gs) ret = inserts gs (inserts fs ret).
Proof. unfold inserts. simpl. by rewrite foldl_app. Qed.

Lemma AddField_inserts kind offset name type this :
  AddField kind offset name type this =
  (inserts [slot kind offset name type] this, field_insertPoint (FirstField this) offset).
Proof. reflexivity. Qed.

Lemma assign_inserts upd f offset this :
  Offset f = offset → Offset (upd f) = offset →
  assign (field_insertPoint (FirstField this) offset) upd (inserts [f] this) =
  inserts [upd f] this.
Proof.
  intros <- Hupd. unfold assign, inserts, insert_field. simpl.
  rewrite alter_splice by apply field_insertPoint_le.
  by rewrite Hupd.
Qed.

(** An insertion followed by assignments through the pointer it returned
    is the insertion of the node with the members assigned. *)
Ltac fold_assignments :=
  repeat first
    [ rewrite AddField_inserts
    | rewrite inserts_nil
    | progress cbn beta iota zeta delta [fst snd]
    | erewrite assign_inserts by reflexivity ].

Lemma AddField_decl_inserts kind offset field this :
  AddField_decl kind offset field this =
  (inserts [set_FieldDeclaration (MakeCXCursor (Some (field_decl field)))
              (slot kind offset (createDup (getName field))
                 (MakeCXType (field_getType field)))] this,
   field_insertPoint (FirstField this) offset).
Proof. unfold AddField_decl. by fold_assignments. Qed.

Lemma add_vtable_pointer_inserts context layout cxxRecord ret :
  add_vtable_pointer context layout cxxRecord ret =
  inserts (vtable_pointer_slots context layout cxxRecord) ret.
Proof.
  unfold add_vtable_pointer, vtable_pointer_slots.
  repeat case_match; by fold_assignments.
Qed.

Lemma add_non_virtual_base_inserts layout ret base :
  add_non_virtual_base layout ret base =
  inserts (non_virtual_base_slots layout base) ret.
Proof.
  unfold add_non_virtual_base, non_virtual_base_slots.
  destruct (isVirtual base); by fold_assignments.
Qed.

Lemma add_non_virtual_bases_inserts layout bs ret :
  foldl (add_non_virtual_base layout) ret bs =
  inserts (bs ≫= non_virtual_base_slots layout) ret.
Proof.
  revert ret. induction bs as [|b bs IH]; intros ret; simpl.
  - by rewrite inserts_nil.
  - by rewrite IH, add_non_virtual_base_inserts, inserts_app.
Qed.

Lemma add_vbtable_pointer_inserts layout ret :
  add_vbtable_pointer layout ret = inserts (vbtable_pointer_slots layout) ret.
Proof.
  unfold add_vbtable_pointer, vbtable_pointer_slots.
  case_match; by fold_assignments.
Qed.

Lemma add_normal_field_inserts context layout fieldIndex field ret :
  add_normal_field context layout fieldIndex field ret =
  inserts [normal_field_slot context layout fieldIndex field] ret.
Proof.
  unfold add_normal_field, normal_field_slot.
  rewrite AddField_decl_inserts.
  destruct (isBitField field); by fold_assignments.
Qed.

Lemma add_normal_fields_inserts context layout fieldIndex fs ret :
  add_normal_fields context layout fieldIndex fs ret =
  inserts (normal_field_slots context layout fieldIndex fs) ret.
Proof.
  revert fieldIndex ret. induction fs as [|f fs IH]; intros fieldIndex ret; simpl.
  - by rewrite inserts_nil.
  - rewrite IH, add_normal_field_inserts.
    by rewrite <- inserts_app.
Qed.

Lemma add_virtual_base_inserts layout ret base :
  add_virtual_base layout ret base = inserts (virtual_base_slots layout base) ret.
Proof.
  unfold add_virtual_base, virtual_base_slots, vtordisp_slot, virtual_base_slot.
  rewrite inserts_app.
  destruct (getVBaseOffsetsMap_hasVtorDisp _ _); by fold_assignments.
Qed.

Lemma add_virtual_bases_inserts layout bs ret :
  foldl (add_virtual_base layout) ret bs =
  inserts (bs ≫= virtual_base_slots layout) ret.
Proof.
  revert ret. induction bs as [|b bs IH]; intros ret; simpl.
  - by rewrite inserts_nil.
  - by rewrite IH, add_virtual_base_inserts, inserts_app.
Qed.

(** ** The tables are appended *)

Lemma vtable_insertPoint_length l : vtable_insertPoint l = length l.
Proof. induction l; simpl; congruence. Qed.

Lemma AddVTableLayout_app layout this :
  fst (AddVTableLayout layout this) =
  set_FirstVTable (FirstVTable this ++ [PathogenVTable.new layout]) this.
Proof.
  unfold AddVTableLayout. simpl.
  by rewrite vtable_insertPoint_length, splice_end.
Qed.

Lemma set_FirstVTable_id this : set_FirstVTable (FirstVTable this ++ []) this = this.
Proof. rewrite app_nil_r. by destruct this. Qed.

Lemma foldl_AddVTableLayout {A} (f : A → VTableLayout) xs this :
  foldl (λ ret x, fst (AddVTableLayout (f x) ret)) this xs =
  set_FirstVTable (FirstVTable this ++ (PathogenVTable.new <$> (f <$> xs))) this.
Proof.
  revert this. induction xs as [|x xs IH]; intros this; cbn [foldl fmap list_fmap].
  - by rewrite set_FirstVTable_id.
  - rewrite IH, AddVTableLayout_app. unfold set_FirstVTable. simpl.
    by rewrite <- app_assoc.
Qed.

Lemma add_vtable_layouts_app context ret :
  add_vtable_layouts context ret =
  set_FirstVTable (FirstVTable ret ++ (PathogenVTable.new <$> vtable_layouts context)) ret.
Proof.
  unfold add_vtable_layouts, vtable_layouts.
  destruct (getVTableContext_isMicrosoft context).
  - apply (foldl_AddVTableLayout (λ offset, getVFTableLayout context (FullOffsetInMDC offset))).
  - apply AddVTableLayout_app.
Qed.

(** ** What the extraction returns *)

Lemma GetRecordLayout_Some cursor ret :
  pathogen_GetRecordLayout cursor = Some ret →
  ∃ record,
    clang_isDeclaration cursor = true
    ∧ getCursorDecl cursor = Some (Decl_Record record)
    ∧ getDefinition record = true
    ∧ ret = returned_layout (getCursorContext cursor) record.
Proof.
  unfold pathogen_GetRecordLayout.
  destruct (clang_isDeclaration cursor) eqn:Hdecl; simpl; [|done].
  destruct (getCursorDecl cursor) as [[record|]|] eqn:Hrec; simpl; [|done..].
  destruct (getDefinition record) eqn:Hdef; simpl; [|done].
  intros [= <-]. exists record. do 3 (split; [done|]).
  unfold returned_layout, slots_before_virtual_bases, slots_of_virtual_bases.
  destruct (dyn_cast_CXXRecordDecl record) as [cxxRecord|].
  - rewrite add_vtable_layouts_app, add_virtual_bases_inserts,
      add_normal_fields_inserts, add_vbtable_pointer_inserts,
      add_non_virtual_bases_inserts, add_vtable_pointer_inserts.
    unfold inserts, set_FirstVTable, set_FirstField. simpl.
    by rewrite !foldl_app.
  - rewrite add_normal_fields_inserts.
    unfold inserts, set_FirstField. simpl. by rewrite app_nil_r.
Qed.

Lemma GetRecordLayout_defined cursor record :
  clang_isDeclaration cursor = true →
  getCursorDecl cursor = Some (Decl_Record record) →
  getDefinition record = true →
  pathogen_GetRecordLayout cursor = Some (returned_layout (getCursorContext cursor) record).
Proof.
  intros Hdecl Hrec Hdef.
  destruct (pathogen_GetRecordLayout cursor) as [ret|] eqn:Hret.
  - apply GetRecordLayout_Some in Hret as (record' & _ & Hrec' & _ & ->).
    congruence.
  - unfold pathogen_GetRecordLayout in Hret.
    rewrite Hdecl, Hrec in Hret. simpl in Hret. by rewrite Hdef in Hret.
Qed.

(** ** The kinds of the slots *)

Lemma vtable_pointer_slots_kind context layout cxxRecord :
  Forall (λ f, Kind f = VTablePtr ∧ Offset f = 0%Z)
    (vtable_pointer_slots context layout cxxRecord).
Proof. unfold vtable_pointer_slots. repeat case_match; by repeat constructor. Qed.

Lemma non_virtual_base_slots_kind layout bs :
  Forall (λ f, Kind f = NonVirtualBase) (bs ≫= non_virtual_base_slots layout).
Proof.
  apply Forall_bind, Forall_forall. intros base _. unfold compose.
  unfold non_virtual_base_slots. destruct (isVirtual base); by repeat constructor.
Qed.

Lemma vbtable_pointer_slots_kind layout :
  Forall (λ f, Kind f = VirtualBaseTablePtr) (vbtable_pointer_slots layout).
Proof. unfold vbtable_pointer_slots. case_match; by repeat constructor. Qed.

Lemma normal_field_slot_kind context layout fieldIndex field :
  Kind (normal_field_slot context layout fieldIndex field) = Normal.
Proof. unfold normal_field_slot. by case_match. Qed.

Lemma normal_field_slots_kind context layout fieldIndex fs :
  Forall (λ f, Kind f = Normal) (normal_field_slots context layout fieldIndex fs).
Proof.
  revert fieldIndex. induction fs as [|field fs IH]; intros fieldIndex; simpl.
  - constructor.
  - constructor; [apply normal_field_slot_kind | apply IH].
Qed.

Lemma virtual_base_slots_kind layout bs :
  Forall (λ f, Kind f = VTorDisp ∨ Kind f = VirtualBase) (bs ≫= virtual_base_slots layout).
Proof.
  apply Forall_bind, Forall_forall. intros base _. unfold compose.
  unfold virtual_base_slots.
  destruct (getVBaseOffsetsMap_hasVtorDisp _ _); simpl;
    repeat apply Forall_cons_2; try apply Forall_nil_2; simpl; auto.
Qed.

(** The slots of index [fieldIndex] onwards are those of the fields, each at
    its own index. *)
Lemma elem_of_normal_field_slots context layout fieldIndex fs f :
  f ∈ normal_field_slots context layout fieldIndex fs →
  ∃ i field, fs !! i = Some field
    ∧ f = normal_field_slot context layout (fieldIndex + i) field.
Proof.
  revert fieldIndex. induction fs as [|field fs IH]; intros fieldIndex; simpl.
  - by intros ?%elem_of_nil.
  - intros [->|Hin]%elem_of_cons.
    + exists 0, field. by rewrite Nat.add_0_r.
    + destruct (IH _ Hin) as (i & field' & Hi & ->).
      exists (S i), field'. split; [done|]. f_equal. lia.
Qed.

Lemma filter_kind_nil (k : PathogenRecordFieldKind) (P : PathogenRecordField → Prop)
    (l : list PathogenRecordField) :
  Forall P l → (∀ f, P f → Kind f ≠ k) → filter (λ f, Kind f = k) l = [].
Proof.
  intros Hl HP. induction Hl as [|f l Hf _ IH]; [done|].
  rewrite filter_cons_False by by apply HP. done.
Qed.

Lemma filter_kind_all (k : PathogenRecordFieldKind) (P : PathogenRecordField → Prop)
    (l : list PathogenRecordField) :
  Forall P l → (∀ f, P f → Kind f = k) → filter (λ f, Kind f = k) l = l.
Proof.
  intros Hl HP. induction Hl as [|f l Hf _ IH]; [done|].
  rewrite filter_cons_True by by apply HP. by rewrite IH.
Qed.

(** The fields of the layout returned are the slots of discovery, in
    another order. *)
Lemma returned_layout_fields_perm context record :
  FirstField (returned_layout context record) ≡ₚ
  slots_before_virtual_bases context record ++ slots_of_virtual_bases context record.
Proof. unfold returned_layout. simpl. by rewrite foldl_insert_field_perm. Qed.

Lemma returned_layout_ordered context record :
  fields_ordered (FirstField (returned_layout context record)).
Proof. apply foldl_insert_field_ordered. constructor. Qed.

Lemma slots_before_virtual_bases_kind context record :
  Forall (λ f, Kind f ≠ VTorDisp ∧ Kind f ≠ VirtualBase)
    (slots_before_virtual_bases context record).
Proof.
  unfold slots_before_virtual_bases.
  apply Forall_app. split.
  - destruct (dyn_cast_CXXRecordDecl record); [|constructor].
    rewrite !Forall_app. split_and!.
    + eapply Forall_impl; [apply vtable_pointer_slots_kind|].
      intros f [Hk _]. by rewrite Hk.
    + eapply Forall_impl; [apply non_virtual_base_slots_kind|].
      intros f Hk. simpl in Hk. by rewrite Hk.
    + eapply Forall_impl; [apply vbtable_pointer_slots_kind|].
      intros f Hk. simpl in Hk. by rewrite Hk.
  - eapply Forall_impl; [apply normal_field_slots_kind|].
    intros f Hk. simpl in Hk. by rewrite Hk.
Qed.

(** ** Integers in range *)

Lemma to_signed_id w z :
  (0 < w)%Z → (- 2 ^ (w - 1) ≤ z < 2 ^ (w - 1))%Z → to_signed w z = z.
Proof.
  intros Hw Hz. unfold to_signed.
  assert (2 ^ w = 2 * 2 ^ (w - 1))%Z as Hpow.
  { rewrite <- Z.pow_succ_r by lia. f_equal. lia. }
  rewrite Z.mod_small by lia. lia.
Qed.

Lemma int64_t_id z : (INT64_MIN ≤ z ≤ INT64_MAX)%Z → int64_t z = z.
Proof.
  unfold INT64_MIN, INT64_MAX, int64_t. intros Hz.
  apply to_signed_id; [done|]. simpl. lia.
Qed.

Lemma int_id z : (- 2 ^ 31 ≤ z < 2 ^ 31)%Z → int z = z.
Proof. intros Hz. apply to_signed_id; [done|]. simpl. lia. Qed.

(** ** Ordering of the fields *)

Lemma AddField_ordered kind offset name type this :
  fields_ordered (FirstField this) →
  fields_ordered (FirstField (AddField kind offset name type this).1).
Proof. intros Hthis. by apply (insert_field_ordered _ (slot kind offset name type)). Qed.

(** C1.  The fields of a layout the extraction returns stand in
    non-decreasing order of [Offset], from the first node to the last; and
    [AddField] links a node into any list in that order so that the list
    with the new node is in that order again: the new node stands behind
    the nodes of an offset at most its own and before the first node of a
    greater offset, so it is not appended at the end. *)
Theorem fields_ordered_by_offset
    (cursor : CXCursor) (ret this : PathogenRecordLayout)
    (Hret : pathogen_GetRecordLayout cursor = Some ret)
    (Hthis : fields_ordered (FirstField this)) :
  fields_ordered (FirstField ret)
  ∧ ∀ kind offset name type,
      fields_ordered (FirstField (AddField kind offset name type this).1)
      ∧ ∃ before after,
          FirstField this = before ++ after
          ∧ FirstField (AddField kind offset name type this).1
            = before ++ slot kind offset name type :: after
          ∧ Forall (λ g, Offset g ≤ offset)%Z before
          ∧ Forall (λ g, offset < Offset g)%Z after.
Proof.
  split.
  - apply GetRecordLayout_Some in Hret as (record & _ & _ & _ & ->).
    apply returned_layout_ordered.
  - intros kind offset name type. split; [by apply AddField_ordered|].
    destruct (insert_field_split (FirstField this) (slot kind offset name type))
      as (before & after & Heq & Hins & Hbefore & Hafter).
    exists before, after. split_and!; [done..|].
    simpl in Hafter.
    assert (fields_ordered after) as Hsorted.
    { unfold fields_ordered in *. rewrite Heq in Hthis.
      apply Sorted_StronglySorted in Hthis; [|intros ???; unfold offset_le; lia].
      by apply StronglySorted_app_1_r, StronglySorted_Sorted in Hthis. }
    destruct after as [|g after]; [constructor|].
    specialize (Hafter g eq_refl).
    apply Sorted_StronglySorted in Hsorted; [|intros ???; unfold offset_le; lia].
    apply StronglySorted_cons in Hsorted as [Hg _].
    constructor; [done|].
    eapply Forall_impl; [exact Hg|]. unfold offset_le. simpl. intros; lia.
Qed.

Lemma fields_ordered_by_offset_witness :
  let ret := returned_layout (getCursorContext reordered_class_cursor) reordered_class in
  let this := returned_layout (getCursorContext plain_struct_cursor) plain_struct in
  let this' := (AddField VTorDisp 2 (createRef "vtordisp") CXType_zero this).1 in
  (Offset
     <$> slots_before_virtual_bases (getCursorContext reordered_class_cursor)
           reordered_class
   = [8; 0; 12]%Z
   ∧ Offset <$> FirstField ret = [0; 8; 12]%Z
   ∧ Offset <$> FirstField this = [0; 4]%Z
   ∧ Offset <$> FirstField this' = [0; 2; 4]%Z)
  ∧ fields_ordered (FirstField ret)
  ∧ fields_ordered (FirstField this')
  ∧ ∃ before after,
      FirstField this = before ++ after
      ∧ FirstField this' = before ++ slot VTorDisp 2 (createRef "vtordisp") CXType_zero :: after
      ∧ Forall (λ g, Offset g ≤ 2)%Z before
      ∧ Forall (λ g, 2 < Offset g)%Z after.
Proof.
  assert (fields_ordered
            (FirstField (returned_layout (getCursorContext plain_struct_cursor)
                           plain_struct))) as Hthis.
  { vm_compute. repeat constructor; discriminate. }
  destruct (fields_ordered_by_offset reordered_class_cursor
              (returned_layout (getCursorContext reordered_class_cursor) reordered_class)
              (returned_layout (getCursorContext plain_struct_cursor) plain_struct)
              eq_refl Hthis) as [Hret Hadd].
  destruct (Hadd VTorDisp 2%Z (createRef "vtordisp") CXType_zero) as [Hordered Hsplit].
  split; [repeat split; reflexivity|].
  split; [exact Hret|]. split; [exact Hordered | exact Hsplit].
Defined.

(** ** Failure of the extraction *)

Lemma asserting_foldl_guarded {A B} (ok : B → bool) (body : A → B → A)
    (message : string) (a : A) (l : list B) :
  asserting_foldl (λ a x, if ok x then Passed (body a x) else AssertionFailed message) a l
  = if forallb ok l then Passed (foldl body a l) else AssertionFailed message.
Proof.
  revert a. induction l as [|x l IH]; intros a; simpl; [done|].
  destruct (ok x); simpl; [apply IH | done].
Qed.

(** With the assertions in force the call aborts when one of them fails, at
    the first that does, and else returns what it returns without them. *)
Lemma GetRecordLayout_asserting_defined cursor record :
  clang_isDeclaration cursor = true →
  getCursorDecl cursor = Some (Decl_Record record) →
  getDefinition record = true →
  pathogen_GetRecordLayout_asserting cursor =
  match dyn_cast_CXXRecordDecl record with
  | Some cxxRecord =>
      if forallb (λ base, negb (isDependentType (getType base))) (bases cxxRecord)
      then if forallb isVirtual (vbases cxxRecord)
           then Passed (pathogen_GetRecordLayout cursor)
           else AssertionFailed "Bases must be virtual."
      else AssertionFailed "Cannot layout class with dependent bases."
  | None => Passed (pathogen_GetRecordLayout cursor)
  end.
Proof.
  intros Hdecl Hrec Hdef.
  unfold pathogen_GetRecordLayout_asserting, pathogen_GetRecordLayout.
  rewrite Hdecl, Hrec. simpl. rewrite Hdef. simpl.
  destruct (dyn_cast_CXXRecordDecl record) as [cxxRecord|]; [|done].
  set (layout := getASTRecordLayout (getCursorContext cursor)).
  rewrite (asserting_foldl_guarded
             (λ base, negb (isDependentType (getType base)))
             (add_non_virtual_base layout)
             "Cannot layout class with dependent bases.").
  destruct (forallb _ (bases cxxRecord)); [|done].
  rewrite (asserting_foldl_guarded isVirtual (add_virtual_base layout)
             "Bases must be virtual.").
  by destruct (forallb isVirtual (vbases cxxRecord)).
Qed.

Lemma GetRecordLayout_asserting_null cursor :
  pathogen_GetRecordLayout cursor = None →
  pathogen_GetRecordLayout_asserting cursor = Passed None.
Proof.
  unfold pathogen_GetRecordLayout_asserting, pathogen_GetRecordLayout.
  destruct (clang_isDeclaration cursor); simpl; [|done].
  destruct (dyn_cast_or_null_RecordDecl (getCursorDecl cursor)) as [record|]; [|done].
  by destruct (getDefinition record).
Qed.

(** What holds of a returned layout holds of it with the assertions in
    force as well. *)
Lemma GetRecordLayout_asserting_Passed cursor r :
  pathogen_GetRecordLayout_asserting cursor = Passed r →
  pathogen_GetRecordLayout cursor = r.
Proof.
  intros Hpassed.
  destruct (pathogen_GetRecordLayout cursor) as [ret|] eqn:Hret.
  - apply GetRecordLayout_Some in Hret as (record & Hdecl & Hrec & Hdef & ->).
    rewrite (GetRecordLayout_asserting_defined _ _ Hdecl Hrec Hdef) in Hpassed.
    rewrite (GetRecordLayout_defined _ _ Hdecl Hrec Hdef) in Hpassed.
    repeat case_match; congruence.
  - apply GetRecordLayout_asserting_null in Hret. congruence.
Qed.

Lemma GetRecordLayout_None cursor :
  pathogen_GetRecordLayout cursor = None ↔
  clang_isDeclaration cursor = false
  ∨ (clang_isDeclaration cursor = true
     ∧ ∀ record, getCursorDecl cursor ≠ Some (Decl_Record record))
  ∨ (∃ record,
       clang_isDeclaration cursor = true
       ∧ getCursorDecl cursor = Some (Decl_Record record)
       ∧ getDefinition record = false).
Proof.
  split.
  - unfold pathogen_GetRecordLayout.
    destruct (clang_isDeclaration cursor); simpl; [|by left].
    destruct (getCursorDecl cursor) as [[record|]|] eqn:Hrec; simpl.
    + destruct (getDefinition record) eqn:Hdef; simpl; [done|].
      intros _. right; right. by exists record.
    + intros _. right; left. split; [done|]. by intros record.
    + intros _. right; left. split; [done|]. by intros record.
  - intros Hnull.
    destruct (pathogen_GetRecordLayout cursor) as [ret|] eqn:Hret; [|done].
    apply GetRecordLayout_Some in Hret as (record & Hdecl & Hrec & Hdef & _).
    destruct Hnull as [? | [[_ Hnot] | (record' & _ & Hrec' & Hdef')]].
    + congruence.
    + by destruct (Hnot record).
    + congruence.
Qed.

(** C2.  The extraction returns the null pointer exactly when the cursor is
    not a declaration, or is one whose declaration is not a record
    declaration, or names a record that has no definition, be the
    assertions of the source in force or compiled out.  In every other case
    it returns a layout: always when the assertions are compiled out, and,
    when they are in force, for a record that has no base of a dependent
    type and only virtual bases among its virtual bases, which is what they
    ask; for another record the call aborts at the assertion and does not
    return. *)
Theorem GetRecordLayout_null_iff (cursor : CXCursor) :
  let null_input :=
    clang_isDeclaration cursor = false
    ∨ (clang_isDeclaration cursor = true
       ∧ ∀ record, getCursorDecl cursor ≠ Some (Decl_Record record))
    ∨ (∃ record,
         clang_isDeclaration cursor = true
         ∧ getCursorDecl cursor = Some (Decl_Record record)
         ∧ getDefinition record = false) in
  (pathogen_GetRecordLayout cursor = None ↔ null_input)
  ∧ (pathogen_GetRecordLayout_asserting cursor = Passed None ↔ null_input)
  ∧ ∀ record,
      clang_isDeclaration cursor = true →
      getCursorDecl cursor = Some (Decl_Record record) →
      getDefinition record = true →
      ∃ ret,
        pathogen_GetRecordLayout cursor = Some ret
        ∧ (assertions_hold record = true →
           pathogen_GetRecordLayout_asserting cursor = Passed (Some ret))
        ∧ (assertions_hold record = false →
           ∃ message, pathogen_GetRecordLayout_asserting cursor = AssertionFailed message).
Proof.
  intros null_input. subst null_input. split_and!.
  - apply GetRecordLayout_None.
  - rewrite <- GetRecordLayout_None. split.
    + apply GetRecordLayout_asserting_Passed.
    + apply GetRecordLayout_asserting_null.
  - intros record Hdecl Hrec Hdef.
    exists (returned_layout (getCursorContext cursor) record).
    pose proof (GetRecordLayout_defined _ _ Hdecl Hrec Hdef) as Hret.
    split; [done|].
    rewrite (GetRecordLayout_asserting_defined _ _ Hdecl Hrec Hdef), Hret.
    unfold assertions_hold.
    destruct (dyn_cast_CXXRecordDecl record) as [cxxRecord|]; [|by split].
    destruct (forallb _ (bases cxxRecord)); simpl.
    + destruct (forallb isVirtual (vbases cxxRecord)); split; try done.
      intros _. by eexists.
    + split; [done|]. intros _. by eexists.
Qed.

Lemma GetRecordLayout_null_iff_witness :
  (∃ ret,
     pathogen_GetRecordLayout reordered_class_cursor = Some ret
     ∧ pathogen_GetRecordLayout_asserting reordered_class_cursor = Passed (Some ret))
  ∧ (∃ message,
       pathogen_GetRecordLayout_asserting dependent_base_cursor = AssertionFailed message)
  ∧ pathogen_GetRecordLayout_asserting function_cursor = Passed None
  ∧ pathogen_GetRecordLayout function_cursor = None
  ∧ pathogen_GetRecordLayout_asserting forward_declared_cursor = Passed None
  ∧ pathogen_GetRecordLayout forward_declared_cursor = None.
Proof.
  split_and!.
  - destruct (proj2 (proj2 (GetRecordLayout_null_iff reordered_class_cursor))
                reordered_class eq_refl eq_refl eq_refl) as (ret & Hret & Hpassed & _).
    exists ret. split; [exact Hret | exact (Hpassed eq_refl)].
  - destruct (proj2 (proj2 (GetRecordLayout_null_iff dependent_base_cursor))
                dependent_base_class eq_refl eq_refl eq_refl) as (ret & _ & _ & Hfailed).
    exact (Hfailed eq_refl).
  - apply (proj1 (proj2 (GetRecordLayout_null_iff function_cursor))).
    right; left. split; [reflexivity | intros record; discriminate].
  - apply (proj1 (GetRecordLayout_null_iff function_cursor)).
    right; left. split; [reflexivity | intros record; discriminate].
  - apply (proj1 (proj2 (GetRecordLayout_null_iff forward_declared_cursor))).
    right; right. eexists. split_and!; reflexivity.
  - apply (proj1 (GetRecordLayout_null_iff forward_declared_cursor)).
    right; right. eexists. split_and!; reflexivity.
Defined.

(** ** Records without virtual functions or virtual bases *)

(** No slot of a virtual pointer, of a virtual base table pointer, of a
    vtordisp or of a virtual base is inserted for a record that is not
    dynamic and has no virtual base, the layout metrics reporting neither a
    vfptr nor a vbptr of its own for such a record. *)
Lemma non_dynamic_record_slots cursor ret record :
  pathogen_GetRecordLayout cursor = Some ret →
  getCursorDecl cursor = Some (Decl_Record record) →
  (∀ cxxRecord, dyn_cast_CXXRecordDecl record = Some cxxRecord →
     isDynamicClass cxxRecord = false ∧ vbases cxxRecord = []
     ∧ hasOwnVFPtr (getASTRecordLayout (getCursorContext cursor)) = false
     ∧ hasOwnVBPtr (getASTRecordLayout (getCursorContext cursor)) = false) →
  Forall (λ f, Kind f = Normal ∨ Kind f = NonVirtualBase) (FirstField ret).
Proof.
  intros Hret Hrec Hcxx.
  apply GetRecordLayout_Some in Hret as (record' & _ & Hrec' & _ & ->).
  assert (record' = record) as -> by congruence.
  rewrite returned_layout_fields_perm.
  unfold slots_before_virtual_bases, slots_of_virtual_bases.
  destruct (dyn_cast_CXXRecordDecl record) as [cxxRecord|].
  - destruct (Hcxx cxxRecord eq_refl) as (Hdyn & Hvb & Hvf & Hvbp).
    unfold vtable_pointer_slots, vbtable_pointer_slots.
    rewrite Hdyn, Hvb, Hvf, Hvbp. simpl. rewrite !app_nil_r.
    apply Forall_app. split.
    + eapply Forall_impl; [apply non_virtual_base_slots_kind|]. simpl. auto.
    + eapply Forall_impl; [apply normal_field_slots_kind|]. simpl. auto.
  - simpl. rewrite app_nil_r.
    eapply Forall_impl; [apply normal_field_slots_kind|]. simpl. auto.
Qed.

(** No table is linked for a record that is not a C++ record, nor, under
    the Microsoft ABI, for a class the vtable context reports no vfptr
    offset for. *)
Lemma no_vtable_without_vfptr cursor ret record :
  pathogen_GetRecordLayout cursor = Some ret →
  getCursorDecl cursor = Some (Decl_Record record) →
  dyn_cast_CXXRecordDecl record = None
  ∨ (getVTableContext_isMicrosoft (getCursorContext cursor) = true
     ∧ getVFPtrOffsets (getCursorContext cursor) = []) →
  FirstVTable ret = [].
Proof.
  intros Hret Hrec Hcase.
  apply GetRecordLayout_Some in Hret as (record' & _ & Hrec' & _ & ->).
  assert (record' = record) as -> by congruence.
  unfold returned_layout, vtable_layouts. simpl.
  destruct Hcase as [-> | [-> ->]]; [done|].
  by destruct (dyn_cast_CXXRecordDecl record).
Qed.

(** C3.  A class of a C++ translation unit that has neither virtual
    functions nor virtual bases, under the Itanium ABI: the extraction
    inserts no slot of a virtual kind, and yet asks for a vtable layout and
    links one table into the layout it returns. *)
Theorem plain_class_has_one_vtable :
  dyn_cast_CXXRecordDecl plain_class = Some (mkCXXRecord false [] [])
  ∧ ∃ ret,
      pathogen_GetRecordLayout plain_class_cursor = Some ret
      ∧ Forall (λ f, Kind f = Normal) (FirstField ret)
      ∧ length (FirstVTable ret) = 1.
Proof.
  split; [reflexivity|]. eexists. split; [reflexivity|].
  split; [by repeat constructor | reflexivity].
Qed.

(** ** The Itanium ABI *)

(** C4.  Under the Itanium ABI, the layout of a dynamic class without a
    primary base has exactly one [VTablePtr] slot, whose offset is 0, and
    exactly one table. *)
Theorem itanium_dynamic_class_without_primary_base
    (cursor : CXCursor) (ret : PathogenRecordLayout)
    (record : RecordDecl) (cxxRecord : CXXRecordDecl)
    (Hret : pathogen_GetRecordLayout cursor = Some ret)
    (Hrecord : getCursorDecl cursor = Some (Decl_Record record))
    (Hcxx : dyn_cast_CXXRecordDecl record = Some cxxRecord)
    (Hdynamic : isDynamicClass cxxRecord = true)
    (Hprimary : getPrimaryBase (getASTRecordLayout (getCursorContext cursor)) = None)
    (Hlayout : IsMsLayout (getCursorContext cursor) = false)
    (Hvtables : getVTableContext_isMicrosoft (getCursorContext cursor) = false) :
  (∃ f, filter (λ f, Kind f = VTablePtr) (FirstField ret) = [f] ∧ Offset f = 0%Z)
  ∧ length (FirstVTable ret) = 1.
Proof.
  apply GetRecordLayout_Some in Hret as (record' & _ & Hrec' & _ & ->).
  assert (record' = record) as -> by congruence.
  split.
  - exists (slot VTablePtr 0 (createRef "vtable_pointer") (MakeCXType (PointerType VoidPtrTy))).
    split; [|done].
    apply Permutation_singleton_r.
    rewrite returned_layout_fields_perm.
    unfold slots_before_virtual_bases, slots_of_virtual_bases. rewrite Hcxx.
    unfold vtable_pointer_slots. rewrite Hdynamic, Hprimary, Hlayout. simpl.
    rewrite filter_cons_True by done.
    rewrite !filter_app.
    rewrite (filter_kind_nil _ _ _ (non_virtual_base_slots_kind _ _)) by (by intros ? ->).
    rewrite (filter_kind_nil _ _ _ (vbtable_pointer_slots_kind _)) by (by intros ? ->).
    rewrite (filter_kind_nil _ _ _ (normal_field_slots_kind _ _ _ _)) by (by intros ? ->).
    rewrite (filter_kind_nil _ _ _ (virtual_base_slots_kind _ _)) by (by intros ? [-> | ->]).
    done.
  - unfold returned_layout, vtable_layouts. simpl. by rewrite Hcxx, Hvtables.
Qed.

Lemma itanium_dynamic_class_without_primary_base_witness :
  (∃ f,
     filter (λ f, Kind f = VTablePtr)
       (FirstField (returned_layout (getCursorContext polymorphic_class_cursor)
                      polymorphic_class)) = [f]
     ∧ Offset f = 0%Z)
  ∧ length
      (FirstVTable (returned_layout (getCursorContext polymorphic_class_cursor)
                      polymorphic_class)) = 1.
Proof.
  apply (itanium_dynamic_class_without_primary_base polymorphic_class_cursor _
           polymorphic_class (mkCXXRecord true [] [])); reflexivity.
Defined.

(** ** The Microsoft ABI *)

(** C5.  Under the Microsoft ABI, the tables of the layout of a class are
    those of the vfptr offsets the vtable context reports for it, one table
    for each offset and linked in the order of the offsets; and
    [AddVTableLayout] links a new table behind the last one. *)
Theorem microsoft_vtables_follow_vfptr_offsets
    (cursor : CXCursor) (ret : PathogenRecordLayout)
    (record : RecordDecl) (cxxRecord : CXXRecordDecl)
    (Hret : pathogen_GetRecordLayout cursor = Some ret)
    (Hrecord : getCursorDecl cursor = Some (Decl_Record record))
    (Hcxx : dyn_cast_CXXRecordDecl record = Some cxxRecord)
    (Hvtables : getVTableContext_isMicrosoft (getCursorContext cursor) = true) :
  let context := getCursorContext cursor in
  length (FirstVTable ret) = length (getVFPtrOffsets context)
  ∧ FirstVTable ret =
      (λ offset, PathogenVTable.new (getVFTableLayout context (FullOffsetInMDC offset)))
        <$> getVFPtrOffsets context
  ∧ ∀ this layout,
      FirstVTable (AddVTableLayout layout this).1 =
      FirstVTable this ++ [PathogenVTable.new layout].
Proof.
  intros context. subst context.
  apply GetRecordLayout_Some in Hret as (record' & _ & Hrec' & _ & ->).
  assert (record' = record) as -> by congruence.
  set (context := getCursorContext cursor) in *.
  assert (FirstVTable (returned_layout context record) =
          (λ offset, PathogenVTable.new (getVFTableLayout context (FullOffsetInMDC offset)))
            <$> getVFPtrOffsets context) as Htables.
  { unfold returned_layout, vtable_layouts. simpl.
    rewrite Hcxx, Hvtables. by rewrite <- list_fmap_compose. }
  split_and!.
  - by rewrite Htables, length_fmap.
  - exact Htables.
  - intros this layout. by rewrite AddVTableLayout_app.
Qed.

Lemma microsoft_vtables_follow_vfptr_offsets_witness :
  let context := getCursorContext microsoft_class_cursor in
  let ret := returned_layout context microsoft_class in
  length (FirstVTable ret) = length (getVFPtrOffsets context)
  ∧ FirstVTable ret =
      (λ offset, PathogenVTable.new (getVFTableLayout context (FullOffsetInMDC offset)))
        <$> getVFPtrOffsets context
  ∧ ∀ this layout,
      FirstVTable (AddVTableLayout layout this).1 =
      FirstVTable this ++ [PathogenVTable.new layout].
Proof.
  apply (microsoft_vtables_follow_vfptr_offsets microsoft_class_cursor _ microsoft_class
           (mkCXXRecord true
              [mkBase false (RecordType 50); mkBase true (RecordType 51)]
              [mkBase true (RecordType 51); mkBase true (RecordType 52)]));
    reflexivity.
Defined.

(** ** Virtual bases *)

Lemma filter_vtordisp_slots layout bs :
  filter (λ f, Kind f = VTorDisp) (bs ≫= virtual_base_slots layout) =
  vtordisp_slot layout
    <$> filter (λ base, getVBaseOffsetsMap_hasVtorDisp layout
                          (getAsCXXRecordDecl (getType base)) = true) bs.
Proof.
  induction bs as [|base bs IH]; [done|].
  cbn [mbind list_bind]. rewrite filter_app, IH. unfold virtual_base_slots.
  destruct (getVBaseOffsetsMap_hasVtorDisp _ _) eqn:Hdisp.
  - rewrite (filter_cons_True _ base) by done. done.
  - rewrite (filter_cons_False _ base) by (by rewrite Hdisp). done.
Qed.

Lemma filter_virtual_base_slots layout bs :
  filter (λ f, Kind f = VirtualBase) (bs ≫= virtual_base_slots layout) =
  virtual_base_slot layout <$> bs.
Proof.
  induction bs as [|base bs IH]; [done|].
  cbn [mbind list_bind]. rewrite filter_app, IH. unfold virtual_base_slots.
  by destruct (getVBaseOffsetsMap_hasVtorDisp _ _).
Qed.

(** C6.  The pass over the virtual bases inserts, behind every other slot
    and for each virtual base in turn, a [VTorDisp] slot when the map of
    the layout says the base has a vtordisp, at the offset of the base less
    4, and then the [VirtualBase] slot of the base, at the offset of the
    base and with [IsPrimaryBase] telling whether the base is the primary
    base.  So the [VTorDisp] slots of the layout are those of the virtual
    bases with a vtordisp and the [VirtualBase] slots those of all virtual
    bases.  The offsets of the bases are values of [int64_t] from which 4
    can be taken. *)
Theorem virtual_base_pass
    (cursor : CXCursor) (ret : PathogenRecordLayout)
    (record : RecordDecl) (cxxRecord : CXXRecordDecl)
    (Hret : pathogen_GetRecordLayout cursor = Some ret)
    (Hrecord : getCursorDecl cursor = Some (Decl_Record record))
    (Hcxx : dyn_cast_CXXRecordDecl record = Some cxxRecord)
    (Hrange :
       Forall
         (λ base,
            INT64_MIN + 4 ≤
              getVBaseClassOffset (getASTRecordLayout (getCursorContext cursor))
                (getAsCXXRecordDecl (getType base)) ≤ INT64_MAX)%Z
         (vbases cxxRecord)) :
  let context := getCursorContext cursor in
  let layout := getASTRecordLayout context in
  let vbase base := getAsCXXRecordDecl (getType base) in
  let offset base := getVBaseClassOffset layout (vbase base) in
  let hasVtorDisp base := getVBaseOffsetsMap_hasVtorDisp layout (vbase base) in
  let isPrimary base := bool_decide (vbase base = getPrimaryBase layout) in
  let vtordisp base :=
    mkField VTorDisp (offset base - 4) (createRef "vtordisp") (MakeCXType (getType base))
      CXCursor_zero false 0 0 false in
  let virtual_base base :=
    mkField VirtualBase (offset base)
      (createRef (if isPrimary base then "primary_virtual_base" else "virtual_base"))
      (MakeCXType (getType base)) CXCursor_zero false 0 0 (isPrimary base) in
  FirstField ret =
    foldl insert_field (foldl insert_field [] (slots_before_virtual_bases context record))
      (vbases cxxRecord ≫=
         λ base, (if hasVtorDisp base then [vtordisp base] else []) ++ [virtual_base base])
  ∧ Forall (λ f, Kind f ≠ VTorDisp ∧ Kind f ≠ VirtualBase)
      (slots_before_virtual_bases context record)
  ∧ filter (λ f, Kind f = VTorDisp) (FirstField ret) ≡ₚ
      vtordisp <$> filter (λ base, hasVtorDisp base = true) (vbases cxxRecord)
  ∧ filter (λ f, Kind f = VirtualBase) (FirstField ret) ≡ₚ
      virtual_base <$> vbases cxxRecord.
Proof.
  intros context layout vbase offset hasVtorDisp isPrimary vtordisp virtual_base.
  apply GetRecordLayout_Some in Hret as (record' & _ & Hrec' & _ & ->).
  assert (record' = record) as -> by congruence.
  fold context.
  assert (Forall (λ base, vtordisp_slot layout base = vtordisp base) (vbases cxxRecord))
    as Hdisp.
  { eapply Forall_impl; [exact Hrange|]. intros base Hbase.
    unfold vtordisp_slot, vtordisp, offset, vbase. fold context layout.
    fold context layout in Hbase.
    rewrite int64_t_id; [done|]. unfold INT64_MIN, INT64_MAX in *. lia. }
  assert (vbases cxxRecord ≫= virtual_base_slots layout =
          vbases cxxRecord ≫=
            λ base, (if hasVtorDisp base then [vtordisp base] else []) ++ [virtual_base base])
    as Hslots.
  { apply Forall_bind_ext. eapply Forall_impl; [exact Hdisp|].
    intros base Hbase. unfold virtual_base_slots. fold (hasVtorDisp base).
    by rewrite Hbase. }
  split_and!.
  - unfold returned_layout. simpl. fold context layout.
    unfold slots_of_virtual_bases. rewrite Hcxx. fold context layout.
    by rewrite foldl_app, Hslots.
  - apply slots_before_virtual_bases_kind.
  - rewrite returned_layout_fields_perm, filter_app.
    rewrite (filter_kind_nil _ _ _ (slots_before_virtual_bases_kind _ _))
      by (by intros ? [? _]).
    unfold slots_of_virtual_bases. rewrite Hcxx. fold context layout.
    rewrite filter_vtordisp_slots. simpl.
    erewrite (Forall_fmap_ext_1 _ vtordisp); [done|].
    apply Forall_forall. intros base [_ Hin]%list_elem_of_filter.
    by apply (proj1 (Forall_forall _ _) Hdisp).
  - rewrite returned_layout_fields_perm, filter_app.
    rewrite (filter_kind_nil _ _ _ (slots_before_virtual_bases_kind _ _))
      by (by intros ? [_ ?]).
    unfold slots_of_virtual_bases. rewrite Hcxx. fold context layout.
    by rewrite filter_virtual_base_slots.
Qed.

Lemma virtual_base_pass_witness :
  (filter (λ f, Kind f = VTorDisp)
     (FirstField (returned_layout microsoft_class_context microsoft_class)) ≡ₚ
     [mkField VTorDisp 24 (createRef "vtordisp") (MakeCXType (RecordType 51))
        CXCursor_zero false 0 0 false]
   ∧ filter (λ f, Kind f = VirtualBase)
       (FirstField (returned_layout microsoft_class_context microsoft_class)) ≡ₚ
       [mkField VirtualBase 28 (createRef "virtual_base") (MakeCXType (RecordType 51))
          CXCursor_zero false 0 0 false;
        mkField VirtualBase 40 (createRef "virtual_base") (MakeCXType (RecordType 52))
          CXCursor_zero false 0 0 false])
  ∧ (filter (λ f, Kind f = VTorDisp)
       (FirstField (returned_layout (getCursorContext primary_virtual_base_cursor)
                      primary_virtual_base_class)) ≡ₚ []
     ∧ filter (λ f, Kind f = VirtualBase)
         (FirstField (returned_layout (getCursorContext primary_virtual_base_cursor)
                        primary_virtual_base_class)) ≡ₚ
         [mkField VirtualBase 0 (createRef "primary_virtual_base")
            (MakeCXType (RecordType 81)) CXCursor_zero false 0 0 true]).
Proof.
  split.
  - assert (Forall
              (λ base,
                 INT64_MIN + 4 ≤
                   getVBaseClassOffset
                     (getASTRecordLayout (getCursorContext microsoft_class_cursor))
                     (getAsCXXRecordDecl (getType base)) ≤ INT64_MAX)%Z
              [mkBase true (RecordType 51); mkBase true (RecordType 52)]) as Hrange.
    { repeat constructor; simpl; unfold INT64_MIN, INT64_MAX; simpl; lia. }
    destruct (virtual_base_pass microsoft_class_cursor _ microsoft_class _
                eq_refl eq_refl eq_refl Hrange) as (_ & _ & Hdisp & Hbase).
    split; [exact Hdisp | exact Hbase].
  - assert (Forall
              (λ base,
                 INT64_MIN + 4 ≤
                   getVBaseClassOffset
                     (getASTRecordLayout (getCursorContext primary_virtual_base_cursor))
                     (getAsCXXRecordDecl (getType base)) ≤ INT64_MAX)%Z
              [mkBase true (RecordType 81)]) as Hrange.
    { repeat constructor; simpl; unfold INT64_MIN, INT64_MAX; simpl; lia. }
    destruct (virtual_base_pass primary_virtual_base_cursor _ primary_virtual_base_class _
                eq_refl eq_refl eq_refl Hrange) as (_ & _ & Hdisp & Hbase).
    split; [exact Hdisp | exact Hbase].
Defined.

(** ** The kinds of vtable entries *)

(** C7.  The enumerators of [PathogenVTableEntryKind] have the values 0 to
    7, each the value of the component kind the static assertion pairs it
    with, and the entry made of a component has the kind of the value of
    the component's kind. *)
Theorem vtable_entry_kind_values :
  PathogenVTableEntryKind_value
    <$> [VCallOffset; VBaseOffset; OffsetToTop; RTTI; FunctionPointer;
         CompleteDestructorPointer; DeletingDestructorPointer; UnusedFunctionPointer]
    = [0; 1; 2; 3; 4; 5; 6; 7]%Z
  ∧ (verify_vtable_entry_kind VCallOffset CK_VCallOffset = true
     ∧ verify_vtable_entry_kind VBaseOffset CK_VBaseOffset = true
     ∧ verify_vtable_entry_kind OffsetToTop CK_OffsetToTop = true
     ∧ verify_vtable_entry_kind RTTI CK_RTTI = true
     ∧ verify_vtable_entry_kind FunctionPointer CK_FunctionPointer = true
     ∧ verify_vtable_entry_kind CompleteDestructorPointer CK_CompleteDtorPointer = true
     ∧ verify_vtable_entry_kind DeletingDestructorPointer CK_DeletingDtorPointer = true
     ∧ verify_vtable_entry_kind UnusedFunctionPointer CK_UnusedFunctionPointer = true)
  ∧ (∀ k : PathogenVTableEntryKind,
       ∃ c : VTableComponent_Kind,
         VTableComponent_Kind_value c = PathogenVTableEntryKind_value k)
  ∧ ∀ component : VTableComponent,
      PathogenVTableEntryKind_value (PathogenVTableEntry.Kind (PathogenVTableEntry.new component))
      = VTableComponent_Kind_value (getKind component).
Proof.
  split_and!; try reflexivity.
  - intros k.
    by destruct k;
      [ exists CK_VCallOffset | exists CK_VBaseOffset | exists CK_OffsetToTop
      | exists CK_RTTI | exists CK_FunctionPointer | exists CK_CompleteDtorPointer
      | exists CK_DeletingDtorPointer | exists CK_UnusedFunctionPointer ].
  - by intros [].
Qed.

(** ** The size introspection *)

(** C8.  On a target whose sizes fit an [int], and for a buffer whose first
    member holds an [int]: when that member differs from the size of
    [PathogenTypeSizes] the call returns false and leaves the buffer as it
    was; otherwise it returns true, the four other members hold the sizes of
    the four structures and the first member is as it was.  The buffer is
    never left with some of the four written and others not. *)
Theorem GetTypeSizes_all_or_nothing
    (target : TargetSizes) (sizes : PathogenTypeSizes.t)
    (Htarget : target_sizes_fit target)
    (Hsizes : is_int (PathogenTypeSizes.PathogenTypeSizes sizes)) :
  let '(result, written) := pathogen_GetTypeSizes target sizes in
  (PathogenTypeSizes.PathogenTypeSizes sizes ≠ sizeof_PathogenTypeSizes target →
     result = false ∧ written = sizes)
  ∧ (PathogenTypeSizes.PathogenTypeSizes sizes = sizeof_PathogenTypeSizes target →
       result = true
       ∧ written =
           PathogenTypeSizes.mk (sizeof_PathogenTypeSizes target)
             (sizeof_PathogenRecordLayout target) (sizeof_PathogenRecordField target)
             (sizeof_PathogenVTable target) (sizeof_PathogenVTableEntry target)).
Proof.
  destruct Htarget as (Hw & Hself & Hlayout & Hfield & Hvtable & Hentry).
  unfold pathogen_GetTypeSizes, is_int in *.
  set (self := PathogenTypeSizes.PathogenTypeSizes sizes) in *.
  assert (to_unsigned (size_t_width target) self = sizeof_PathogenTypeSizes target
          ↔ self = sizeof_PathogenTypeSizes target) as Hconv.
  { unfold to_unsigned.
    assert (2 ^ 32 ≤ 2 ^ size_t_width target)%Z by (apply Z.pow_le_mono_r; lia).
    destruct (Z.neg_nonneg_cases self) as [Hneg|Hpos].
    - split; [|lia]. intros Heq.
      assert (self mod 2 ^ size_t_width target = self + 2 ^ size_t_width target)%Z
        as Hmod; [|lia].
      symmetry. apply (Z.mod_unique _ _ (-1)); lia.
    - rewrite Z.mod_small by lia. done. }
  destruct (Z.eqb_spec (to_unsigned (size_t_width target) self)
              (sizeof_PathogenTypeSizes target)) as [Heq|Hne]; simpl.
  - apply Hconv in Heq. split; [intros Hne; by destruct Hne|].
    intros _. split; [done|].
    rewrite !int_id by lia. by rewrite Heq.
  - split; [done|]. intros Heq. by apply Hconv in Heq.
Qed.

Lemma GetTypeSizes_all_or_nothing_witness :
  pathogen_GetTypeSizes lp64_sizes (PathogenTypeSizes.mk 20 0 0 0 0)
    = (true, PathogenTypeSizes.mk 20 56 112 24 80)
  ∧ pathogen_GetTypeSizes lp64_sizes (PathogenTypeSizes.mk (-1) 1 2 3 4)
    = (false, PathogenTypeSizes.mk (-1) 1 2 3 4).
Proof.
  assert (target_sizes_fit lp64_sizes) as Htarget.
  { unfold target_sizes_fit. simpl. lia. }
  split.
  - assert (is_int (PathogenTypeSizes.PathogenTypeSizes (PathogenTypeSizes.mk 20 0 0 0 0)))
      as Hsizes by (unfold is_int; simpl; lia).
    pose proof (GetTypeSizes_all_or_nothing lp64_sizes _ Htarget Hsizes) as Hcall.
    destruct (pathogen_GetTypeSizes lp64_sizes (PathogenTypeSizes.mk 20 0 0 0 0))
      as [result written].
    destruct Hcall as [_ Hfill]. destruct (Hfill eq_refl) as [-> ->]. reflexivity.
  - assert (is_int (PathogenTypeSizes.PathogenTypeSizes (PathogenTypeSizes.mk (-1) 1 2 3 4)))
      as Hsizes by (unfold is_int; simpl; lia).
    pose proof (GetTypeSizes_all_or_nothing lp64_sizes _ Htarget Hsizes) as Hcall.
    destruct (pathogen_GetTypeSizes lp64_sizes (PathogenTypeSizes.mk (-1) 1 2 3 4))
      as [result written].
    destruct Hcall as [Hkeep _]. destruct Hkeep as [-> ->]; [done|reflexivity].
Defined.

(** ** Bit-fields *)

Lemma uint64_t_int64_t z : uint64_t (int64_t z) = uint64_t z.
Proof.
  unfold uint64_t, int64_t, to_unsigned, to_signed.
  rewrite Zminus_mod_idemp_l. f_equal. lia.
Qed.

Lemma uint64_t_id z : (0 ≤ z < 2 ^ 64)%Z → uint64_t z = z.
Proof. intros Hz. unfold uint64_t, to_unsigned. by rewrite Z.mod_small. Qed.

(** The byte and the bit within the byte of a bit offset, for characters of
    8 bits. *)
Lemma bit_offset_split context offsetBits :
  getCharWidth context = 8%Z → (0 ≤ offsetBits < 2 ^ 64)%Z →
  toCharUnitsFromBits context offsetBits = (offsetBits / 8)%Z
  ∧ unsigned_int
      (uint64_t (offsetBits
                 - uint64_t (toBits context (toCharUnitsFromBits context offsetBits))))
    = (offsetBits mod 8)%Z.
Proof.
  intros Hchar Hbits.
  assert (toCharUnitsFromBits context offsetBits = (offsetBits / 8)%Z) as Hchars.
  { unfold toCharUnitsFromBits. rewrite Hchar, uint64_t_id by done.
    apply int64_t_id. unfold INT64_MIN, INT64_MAX.
    pose proof (Z.div_pos offsetBits 8). 
    assert (offsetBits / 8 < 2 ^ 61)%Z by (apply Z.div_lt_upper_bound; lia).
    lia. }
  split; [done|].
  rewrite Hchars. unfold toBits. rewrite Hchar, uint64_t_int64_t.
  pose proof (Z.div_mod offsetBits 8 ltac:(lia)) as Hdiv.
  pose proof (Z.mod_pos_bound offsetBits 8 ltac:(lia)) as Hmod.
  rewrite (uint64_t_id (offsetBits / 8 * 8)) by lia.
  replace (offsetBits - offsetBits / 8 * 8)%Z with (offsetBits mod 8)%Z by lia.
  rewrite uint64_t_id by lia.
  unfold unsigned_int, to_unsigned. rewrite Z.mod_small; lia.
Qed.

Lemma slot_zero kind offset name type : zero_unless_assigned (slot kind offset name type).
Proof. by repeat split. Qed.

Lemma slots_before_virtual_bases_zero context record :
  Forall zero_unless_assigned (slots_before_virtual_bases context record).
Proof.
  unfold slots_before_virtual_bases. apply Forall_app. split.
  - destruct (dyn_cast_CXXRecordDecl record) as [cxxRecord|]; [|constructor].
    rewrite !Forall_app. split_and!.
    + unfold vtable_pointer_slots.
      repeat case_match; repeat constructor; apply slot_zero.
    + apply Forall_bind, Forall_forall. intros base _. unfold compose.
      unfold non_virtual_base_slots.
      destruct (isVirtual base); repeat constructor; simpl; try done.
    + unfold vbtable_pointer_slots. case_match; repeat constructor; apply slot_zero.
  - generalize 0. induction (fields record) as [|field fs IH]; intros fieldIndex; simpl.
    + constructor.
    + constructor; [|apply IH].
      unfold normal_field_slot. destruct (isBitField field); by repeat split.
Qed.

Lemma slots_of_virtual_bases_zero context record :
  Forall zero_unless_assigned (slots_of_virtual_bases context record).
Proof.
  unfold slots_of_virtual_bases.
  destruct (dyn_cast_CXXRecordDecl record) as [cxxRecord|]; [|constructor].
  apply Forall_bind, Forall_forall. intros base _. unfold compose.
  unfold virtual_base_slots.
  destruct (getVBaseOffsetsMap_hasVtorDisp _ _); simpl;
    repeat apply Forall_cons_2; try apply Forall_nil_2;
    try apply slot_zero; by repeat split.
Qed.

Lemma returned_layout_zero context record :
  Forall zero_unless_assigned (FirstField (returned_layout context record)).
Proof.
  rewrite returned_layout_fields_perm. apply Forall_app.
  split; [apply slots_before_virtual_bases_zero | apply slots_of_virtual_bases_zero].
Qed.

(** A slot flagged a bit-field is the slot of a declared bit-field. *)
Lemma returned_layout_bitfield context record f :
  f ∈ FirstField (returned_layout context record) → IsBitField f = true →
  ∃ fieldIndex field,
    fields record !! fieldIndex = Some field ∧ isBitField field = true
    ∧ f = normal_field_slot context (getASTRecordLayout context) fieldIndex field.
Proof.
  intros Hin Hbit.
  pose proof (proj1 (Forall_forall _ _) (returned_layout_zero context record) f Hin)
    as (Hzero & _).
  assert (Kind f = Normal) as Hkind.
  { destruct (decide (Kind f = Normal)) as [|Hne]; [done|].
    destruct (Hzero Hne) as [_ Hno]. congruence. }
  rewrite returned_layout_fields_perm in Hin.
  apply elem_of_app in Hin as [Hin|Hin].
  - unfold slots_before_virtual_bases in Hin.
    apply elem_of_app in Hin as [Hin|Hin].
    + exfalso. destruct (dyn_cast_CXXRecordDecl record) as [cxxRecord|];
        [|by apply elem_of_nil in Hin].
      rewrite !elem_of_app in Hin. destruct Hin as [Hin|[Hin|Hin]].
      * pose proof (proj1 (Forall_forall _ _) (vtable_pointer_slots_kind _ _ _) f Hin)
          as [? _]. congruence.
      * pose proof (proj1 (Forall_forall _ _) (non_virtual_base_slots_kind _ _) f Hin).
        simpl in *. congruence.
      * pose proof (proj1 (Forall_forall _ _) (vbtable_pointer_slots_kind _) f Hin).
        simpl in *. congruence.
    + apply elem_of_normal_field_slots in Hin as (i & field & Hi & ->).
      exists i, field. split_and!; [done| |done].
      unfold normal_field_slot in Hbit. by destruct (isBitField field).
  - exfalso. unfold slots_of_virtual_bases in Hin.
    destruct (dyn_cast_CXXRecordDecl record) as [cxxRecord|];
      [|by apply elem_of_nil in Hin].
    pose proof (proj1 (Forall_forall _ _) (virtual_base_slots_kind _ _) f Hin) as Hk.
    simpl in Hk. destruct Hk; congruence.
Qed.

(** C9, as amended.  For characters of 8 bits, a slot flagged a bit-field
    is the [Normal] slot of a declared bit-field: its offset is the byte of
    the field's bit offset, its [BitFieldStart] the bit within that byte,
    which is less than 8, and its [BitFieldWidth] the declared width of the
    field, which the byte does not bound. *)
Theorem bitfield_start_within_byte
    (cursor : CXCursor) (ret : PathogenRecordLayout) (record : RecordDecl)
    (f : PathogenRecordField)
    (Hret : pathogen_GetRecordLayout cursor = Some ret)
    (Hrecord : getCursorDecl cursor = Some (Decl_Record record))
    (Hchar : getCharWidth (getCursorContext cursor) = 8%Z)
    (Hoffsets :
       ∀ fieldIndex,
         (0 ≤ getFieldOffset (getASTRecordLayout (getCursorContext cursor)) fieldIndex
          < 2 ^ 64)%Z)
    (Hin : f ∈ FirstField ret)
    (Hbit : IsBitField f = true) :
  let layout := getASTRecordLayout (getCursorContext cursor) in
  (0 ≤ BitFieldStart f < 8)%Z
  ∧ ∃ fieldIndex field,
      fields record !! fieldIndex = Some field
      ∧ isBitField field = true
      ∧ Kind f = Normal
      ∧ Offset f = (getFieldOffset layout fieldIndex / 8)%Z
      ∧ BitFieldStart f = (getFieldOffset layout fieldIndex mod 8)%Z
      ∧ BitFieldWidth f = getBitWidthValue field.
Proof.
  intros layout.
  apply GetRecordLayout_Some in Hret as (record' & _ & Hrec' & _ & ->).
  assert (record' = record) as -> by congruence.
  apply returned_layout_bitfield in Hin as (i & field & Hi & Hfield & ->); [|done].
  fold layout.
  destruct (bit_offset_split (getCursorContext cursor) (getFieldOffset layout i)
              Hchar (Hoffsets i)) as [Hchars Hstart].
  assert (BitFieldStart
            (normal_field_slot (getCursorContext cursor) layout i field)
          = (getFieldOffset layout i mod 8)%Z) as Hs.
  { unfold normal_field_slot. rewrite Hfield. simpl. exact Hstart. }
  split.
  - rewrite Hs. apply Z.mod_pos_bound. lia.
  - exists i, field. split_and!; try done.
    + apply normal_field_slot_kind.
    + unfold normal_field_slot. rewrite Hfield. simpl. exact Hchars.
    + unfold normal_field_slot. by rewrite Hfield.
Qed.

Lemma bitfield_start_within_byte_witness :
  let f :=
    mkField Normal 2 (createDup "b") (MakeCXType int_type) (MakeCXCursor (Some 22))
      true 4 3 false in
  let layout := wide_bitfield_layout in
  (0 ≤ BitFieldStart f < 8)%Z
  ∧ ∃ fieldIndex field,
      fields wide_bitfield_struct !! fieldIndex = Some field
      ∧ isBitField field = true
      ∧ Kind f = Normal
      ∧ Offset f = (getFieldOffset layout fieldIndex / 8)%Z
      ∧ BitFieldStart f = (getFieldOffset layout fieldIndex mod 8)%Z
      ∧ BitFieldWidth f = getBitWidthValue field.
Proof.
  apply (bitfield_start_within_byte wide_bitfield_cursor
           (returned_layout (getCursorContext wide_bitfield_cursor) wide_bitfield_struct)
           wide_bitfield_struct).
  - reflexivity.
  - reflexivity.
  - reflexivity.
  - intros [|fieldIndex]; simpl; lia.
  - apply list_elem_of_In. simpl. right. left. reflexivity.
  - reflexivity.
Defined.

(** C9, as the spec states it, fails on the bit-field [a] of
    [struct { int a : 20; int b : 3; }]: it starts at bit 0 of byte 0 and is
    20 bits wide, so start and width add up to 20, more than the 8 bits of a
    byte. *)
Lemma bitfield_past_byte_counterexample :
  ¬ (∀ ret f,
       pathogen_GetRecordLayout wide_bitfield_cursor = Some ret →
       f ∈ FirstField ret → IsBitField f = true →
       (BitFieldStart f + BitFieldWidth f ≤ 8)%Z).
Proof.
  intros Hclaim.
  specialize (Hclaim
    (returned_layout (getCursorContext wide_bitfield_cursor) wide_bitfield_struct)
    (mkField Normal 0 (createDup "a") (MakeCXType int_type) (MakeCXCursor (Some 21))
       true 0 20 false)
    eq_refl).
  simpl in Hclaim.
  assert (0 + 20 ≤ 8)%Z as Hle; [|lia].
  apply Hclaim; [|reflexivity].
  apply list_elem_of_In. simpl. left. reflexivity.
Qed.

(** ** Value-initialization *)

Lemma AddField_new_node kind offset name type this :
  FirstField (AddField kind offset name type this).1
    !! (AddField kind offset name type this).2
  = Some (slot kind offset name type).
Proof.
  unfold AddField. simpl. apply splice_lookup, field_insertPoint_le.
Qed.

(** C10.  A layout and a field are zeroed when they are created.  For a
    record that is not a C++ record the layout returned has [IsCppRecord]
    false, [NonVirtualSize] and [NonVirtualAlignment] 0 and no table, and
    its fields are the [Normal] slots of the declared fields, the lists
    being empty before.  The node [AddField] creates has, beside the four
    members given, a zero declaration, [IsBitField] and [IsPrimaryBase]
    false and [BitFieldStart] and [BitFieldWidth] 0; and in every layout
    returned those members are still zero in each field for which the
    source has no assignment to them. *)
Theorem value_initialized
    (plain_cursor : CXCursor) (plain_ret : PathogenRecordLayout) (plain_record : RecordDecl)
    (cursor : CXCursor) (ret : PathogenRecordLayout)
    (Hplain_ret : pathogen_GetRecordLayout plain_cursor = Some plain_ret)
    (Hplain_record : getCursorDecl plain_cursor = Some (Decl_Record plain_record))
    (Hplain : dyn_cast_CXXRecordDecl plain_record = None)
    (Hret : pathogen_GetRecordLayout cursor = Some ret) :
  (new_PathogenRecordLayout = mkLayout [] [] 0 0 false 0 0
   ∧ new_PathogenRecordField
     = mkField Normal 0 CXString_zero CXType_zero CXCursor_zero false 0 0 false)
  ∧ (IsCppRecord plain_ret = false
     ∧ NonVirtualSize plain_ret = 0%Z
     ∧ NonVirtualAlignment plain_ret = 0%Z
     ∧ FirstVTable plain_ret = []
     ∧ Forall (λ f, Kind f = Normal) (FirstField plain_ret)
     ∧ length (FirstField plain_ret) = length (fields plain_record))
  ∧ (∀ this kind offset name type,
       FirstField (AddField kind offset name type this).1
         !! (AddField kind offset name type this).2
       = Some (mkField kind offset name type CXCursor_zero false 0 0 false))
  ∧ Forall zero_unless_assigned (FirstField ret).
Proof.
  split_and!; try reflexivity.
  - apply GetRecordLayout_Some in Hplain_ret as (record' & _ & Hrec' & _ & ->).
    assert (record' = plain_record) as -> by congruence.
    unfold returned_layout. by rewrite Hplain.
  - apply GetRecordLayout_Some in Hplain_ret as (record' & _ & Hrec' & _ & ->).
    assert (record' = plain_record) as -> by congruence.
    unfold returned_layout. by rewrite Hplain.
  - apply GetRecordLayout_Some in Hplain_ret as (record' & _ & Hrec' & _ & ->).
    assert (record' = plain_record) as -> by congruence.
    unfold returned_layout. by rewrite Hplain.
  - apply GetRecordLayout_Some in Hplain_ret as (record' & _ & Hrec' & _ & ->).
    assert (record' = plain_record) as -> by congruence.
    unfold returned_layout. by rewrite Hplain.
  - apply GetRecordLayout_Some in Hplain_ret as (record' & _ & Hrec' & _ & ->).
    assert (record' = plain_record) as -> by congruence.
    rewrite returned_layout_fields_perm.
    unfold slots_before_virtual_bases, slots_of_virtual_bases. rewrite Hplain.
    simpl. rewrite app_nil_r. apply normal_field_slots_kind.
  - apply GetRecordLayout_Some in Hplain_ret as (record' & _ & Hrec' & _ & ->).
    assert (record' = plain_record) as -> by congruence.
    rewrite returned_layout_fields_perm.
    unfold slots_before_virtual_bases, slots_of_virtual_bases. rewrite Hplain.
    simpl. rewrite app_nil_r.
    generalize 0. induction (fields plain_record) as [|field fs IH]; intros i; simpl;
      [done | by rewrite IH].
  - intros this kind offset name type. apply AddField_new_node.
  - apply GetRecordLayout_Some in Hret as (record' & _ & _ & _ & ->).
    apply returned_layout_zero.
Qed.

Lemma value_initialized_witness :
  let plain_ret := returned_layout (getCursorContext plain_struct_cursor) plain_struct in
  IsCppRecord plain_ret = false
  ∧ NonVirtualSize plain_ret = 0%Z
  ∧ NonVirtualAlignment plain_ret = 0%Z
  ∧ FirstVTable plain_ret = []
  ∧ Forall (λ f, Kind f = Normal) (FirstField plain_ret)
  ∧ length (FirstField plain_ret) = length (fields plain_struct).
Proof.
  exact (proj1 (proj2
    (value_initialized plain_struct_cursor _ plain_struct microsoft_class_cursor
       (returned_layout microsoft_class_context microsoft_class)
       eq_refl eq_refl eq_refl eq_refl))).
Defined.

(** * Further properties of the code *)

(** ** [AddField]: what an insertion keeps *)

Lemma splice_sublist {A} i (x : A) l : l `sublist_of` splice i x l.
Proof.
  unfold splice. rewrite <- (take_drop i l) at 1.
  apply sublist_app; [done|]. by apply sublist_cons.
Qed.

Lemma splice_split {A} i (x : A) l :
  ∃ before after, l = before ++ after ∧ splice i x l = before ++ x :: after
    ∧ length before = i `min` length l.
Proof.
  exists (take i l), (drop i l). split_and!; [by rewrite take_drop | done |].
  apply length_take.
Qed.

(** X1.  [AddField] links exactly one node in: the nodes linked before stay,
    in the order they had, the new node is the only other one, and no other
    member of the layout changes. *)
Theorem AddField_keeps_nodes
    (this : PathogenRecordLayout) (kind : PathogenRecordFieldKind) (offset : Z)
    (name : CXString) (type : CXType) :
  let this' := (AddField kind offset name type this).1 in
  FirstField this `sublist_of` FirstField this'
  ∧ FirstField this' ≡ₚ slot kind offset name type :: FirstField this
  ∧ length (FirstField this') = S (length (FirstField this))
  ∧ FirstVTable this' = FirstVTable this
  ∧ Size this' = Size this ∧ Alignment this' = Alignment this
  ∧ IsCppRecord this' = IsCppRecord this
  ∧ NonVirtualSize this' = NonVirtualSize this
  ∧ NonVirtualAlignment this' = NonVirtualAlignment this.
Proof.
  simpl. split_and!; try reflexivity.
  - apply splice_sublist.
  - apply splice_perm.
  - apply splice_length.
Qed.

(** X2.  The pointer [AddField] returns is that of the node it created,
    also among nodes of the same offset: an assignment through it changes
    the new node and leaves every other node and the order as they are. *)
Theorem assign_through_returned_pointer
    (this : PathogenRecordLayout) (kind : PathogenRecordFieldKind) (offset : Z)
    (name : CXString) (type : CXType)
    (upd : PathogenRecordField → PathogenRecordField) :
  let '(this', field) := AddField kind offset name type this in
  ∃ before after,
    FirstField this = before ++ after
    ∧ FirstField this' = before ++ slot kind offset name type :: after
    ∧ FirstField (assign field upd this') = before ++ upd (slot kind offset name type) :: after
    ∧ field = length before.
Proof.
  simpl.
  destruct (splice_split (field_insertPoint (FirstField this) offset)
              (slot kind offset name type) (FirstField this))
    as (before & after & Heq & Hsplice & Hlen).
  pose proof (field_insertPoint_le (FirstField this) offset) as Hle.
  exists before, after. split_and!; [done | done | | lia].
  rewrite alter_splice by done.
  unfold splice. unfold splice in Hsplice.
  apply app_inj_1 in Hsplice as [-> Hrest]; [|rewrite length_take; lia].
  by injection Hrest as ->.
Qed.

Lemma StronglySorted_offset_le l : fields_ordered l → StronglySorted offset_le l.
Proof.
  apply Sorted_StronglySorted. intros ???; unfold offset_le; lia.
Qed.

(** The nodes behind the place of insertion all have a greater offset when
    the list is ordered. *)
Lemma insert_field_split_ordered l f :
  fields_ordered l →
  ∃ l1 l2, l = l1 ++ l2 ∧ insert_field l f = l1 ++ f :: l2
    ∧ Forall (λ g, Offset g ≤ Offset f)%Z l1
    ∧ Forall (λ g, Offset f < Offset g)%Z l2.
Proof.
  intros Hl.
  destruct (insert_field_split l f) as (l1 & l2 & -> & Hins & Hl1 & Hl2).
  exists l1, l2. split_and!; [done..|].
  apply StronglySorted_offset_le, StronglySorted_app_1_r in Hl.
  destruct l2 as [|g l2]; [constructor|].
  specialize (Hl2 g eq_refl).
  apply StronglySorted_cons in Hl as [Hg _].
  constructor; [done|].
  eapply Forall_impl; [exact Hg|]. unfold offset_le. simpl. intros; lia.
Qed.

Section filter_insert.
Context (P : PathogenRecordField → Prop) `{!∀ f, Decision (P f)}.

Lemma filter_insert_field_other l f :
  ¬ P f → filter P (insert_field l f) = filter P l.
Proof.
  intros Hf.
  destruct (insert_field_split l f) as (l1 & l2 & -> & -> & _).
  rewrite !filter_app. by rewrite filter_cons_False.
Qed.

Lemma filter_insert_field_behind l f :
  fields_ordered l → P f →
  (∀ g, g ∈ l → P g → Offset g ≤ Offset f)%Z →
  filter P (insert_field l f) = filter P l ++ [f].
Proof.
  intros Hl Hf Hle.
  destruct (insert_field_split_ordered l f Hl) as (l1 & l2 & -> & -> & _ & Hl2).
  rewrite !filter_app, filter_cons_True by done.
  assert (Forall (λ g, ¬ P g) l2) as Hnot.
  { apply Forall_forall. intros g Hg Hpg.
    pose proof (proj1 (Forall_forall _ _) Hl2 g Hg) as Hlt. simpl in Hlt.
    assert (Offset g ≤ Offset f)%Z
      by (apply Hle; [apply elem_of_app; by right | done]). lia. }
  assert (filter P l2 = []) as ->.
  { clear -Hnot. induction Hnot as [|g l2 Hg _ IH]; [done|].
    by rewrite filter_cons_False. }
  by rewrite app_nil_r.
Qed.

Lemma filter_foldl_insert_field_other fs l :
  Forall (λ f, ¬ P f) fs → filter P (foldl insert_field l fs) = filter P l.
Proof.
  revert l. induction fs as [|f fs IH]; intros l Hfs; simpl; [done|].
  apply Forall_cons in Hfs as [Hf Hfs].
  rewrite IH by done. by apply filter_insert_field_other.
Qed.

Lemma filter_foldl_insert_field_behind fs l :
  fields_ordered l → Forall P fs → StronglySorted offset_le fs →
  (∀ g f, g ∈ l → P g → f ∈ fs → Offset g ≤ Offset f)%Z →
  filter P (foldl insert_field l fs) = filter P l ++ fs.
Proof.
  revert l. induction fs as [|f fs IH]; intros l Hl HP Hfs Hle; simpl.
  - by rewrite app_nil_r.
  - apply Forall_cons in HP as [Hf HP].
    apply StronglySorted_cons in Hfs as [Hhd Hfs].
    rewrite IH; [| by apply insert_field_ordered | done | done |].
    + rewrite filter_insert_field_behind; [by rewrite <- app_assoc | done | done |].
      intros g Hg Hpg. apply (Hle g f); [done | done | by left].
    + intros g h Hg Hpg Hh.
      apply (elem_of_Permutation_proper _ _ _ (insert_field_perm l f)) in Hg.
      apply elem_of_cons in Hg as [-> | Hg].
      * by apply (proj1 (Forall_forall _ _) Hhd).
      * apply (Hle g h); [done | done | by right].
Qed.
End filter_insert.

(** X3.  In an ordered list [AddField] puts the new node behind all nodes
    of its own offset: the nodes of any one offset are as before, with the
    new node last among those of its offset. *)
Theorem AddField_behind_equal_offsets
    (this : PathogenRecordLayout) (kind : PathogenRecordFieldKind) (offset : Z)
    (name : CXString) (type : CXType)
    (Hthis : fields_ordered (FirstField this)) :
  ∀ o : Z,
    filter (λ f, Offset f = o) (FirstField (AddField kind offset name type this).1)
    = filter (λ f, Offset f = o) (FirstField this)
      ++ (if decide (o = offset) then [slot kind offset name type] else []).
Proof.
  intros o. change (FirstField (AddField kind offset name type this).1)
    with (insert_field (FirstField this) (slot kind offset name type)).
  destruct (decide (o = offset)) as [-> | Hne].
  - apply (filter_insert_field_behind (λ f, Offset f = offset)); [done | done |].
    intros g _ ->. simpl. lia.
  - rewrite app_nil_r.
    apply (filter_insert_field_other (λ f, Offset f = o)). simpl. congruence.
Qed.

Lemma AddField_behind_equal_offsets_witness :
  filter (λ f, Offset f = 4%Z)
    (FirstField
       (AddField VTorDisp 4 (createRef "vtordisp") CXType_zero
          (returned_layout (getCursorContext plain_struct_cursor) plain_struct)).1)
  = filter (λ f, Offset f = 4%Z)
      (FirstField (returned_layout (getCursorContext plain_struct_cursor) plain_struct))
    ++ [slot VTorDisp 4 (createRef "vtordisp") CXType_zero].
Proof.
  refine (AddField_behind_equal_offsets
            (returned_layout (getCursorContext plain_struct_cursor) plain_struct)
            VTorDisp 4 (createRef "vtordisp") CXType_zero _ 4%Z).
  vm_compute. repeat constructor; discriminate.
Defined.

(** ** The slots of each kind in the layout returned *)

Lemma GetRecordLayout_returned cursor ret record :
  pathogen_GetRecordLayout cursor = Some ret →
  getCursorDecl cursor = Some (Decl_Record record) →
  ret = returned_layout (getCursorContext cursor) record.
Proof.
  intros Hret Hrecord.
  apply GetRecordLayout_Some in Hret as (record' & _ & Hrec' & _ & ->).
  congruence.
Qed.

Lemma cxx_slots_kind context layout cxxRecord :
  Forall (λ f, Kind f ≠ Normal)
    (vtable_pointer_slots context layout cxxRecord
     ++ (bases cxxRecord ≫= non_virtual_base_slots layout)
     ++ vbtable_pointer_slots layout).
Proof.
  rewrite !Forall_app. split_and!.
  - eapply Forall_impl; [apply vtable_pointer_slots_kind|]. by intros f [-> _].
  - eapply Forall_impl; [apply non_virtual_base_slots_kind|]. simpl. by intros f ->.
  - eapply Forall_impl; [apply vbtable_pointer_slots_kind|]. simpl. by intros f ->.
Qed.

(** The slots of one kind, when the slots of discovery of that kind come
    from one pass only. *)
Lemma filter_kind_returned_layout context record (k : PathogenRecordFieldKind) :
  filter (λ f, Kind f = k) (FirstField (returned_layout context record)) ≡ₚ
  filter (λ f, Kind f = k)
    (slots_before_virtual_bases context record ++ slots_of_virtual_bases context record).
Proof. by rewrite returned_layout_fields_perm. Qed.

(** X4.  A layout has at most one [VTablePtr] slot: none for a record that
    is not a C++ record; for a C++ record the Itanium one, named
    "vtable_pointer", when the class is dynamic without a primary base and
    the ABI is not Microsoft's, and else the one named "vftable_pointer"
    when the layout has a vfptr of its own.  The slot is at offset 0 and of
    type [void**]. *)
Theorem vtable_pointer_slot_of_layout
    (cursor : CXCursor) (ret : PathogenRecordLayout) (record : RecordDecl)
    (Hret : pathogen_GetRecordLayout cursor = Some ret)
    (Hrecord : getCursorDecl cursor = Some (Decl_Record record)) :
  let context := getCursorContext cursor in
  let layout := getASTRecordLayout context in
  filter (λ f, Kind f = VTablePtr) (FirstField ret) =
  match dyn_cast_CXXRecordDecl record with
  | Some cxxRecord =>
      if isDynamicClass cxxRecord && negb (bool_decide (is_Some (getPrimaryBase layout)))
         && negb (IsMsLayout context)
      then [mkField VTablePtr 0 (createRef "vtable_pointer")
              (MakeCXType (PointerType VoidPtrTy)) CXCursor_zero false 0 0 false]
      else if hasOwnVFPtr layout
      then [mkField VTablePtr 0 (createRef "vftable_pointer")
              (MakeCXType (PointerType VoidPtrTy)) CXCursor_zero false 0 0 false]
      else []
  | None => []
  end.
Proof.
  intros context layout.
  rewrite (GetRecordLayout_returned _ _ _ Hret Hrecord). fold context.
  assert (filter (λ f, Kind f = VTablePtr)
            (slots_before_virtual_bases context record
             ++ slots_of_virtual_bases context record)
          = match dyn_cast_CXXRecordDecl record with
            | Some cxxRecord => vtable_pointer_slots context layout cxxRecord
            | None => []
            end) as Hslots.
  { unfold slots_before_virtual_bases, slots_of_virtual_bases. fold layout.
    rewrite !filter_app.
    rewrite (filter_kind_nil _ _ _ (normal_field_slots_kind _ _ _ _)) by (by intros ? ->).
    destruct (dyn_cast_CXXRecordDecl record) as [cxxRecord|]; [|done].
    rewrite !filter_app.
    rewrite (filter_kind_nil _ _ _ (non_virtual_base_slots_kind _ _)) by (by intros ? ->).
    rewrite (filter_kind_nil _ _ _ (vbtable_pointer_slots_kind _)) by (by intros ? ->).
    rewrite (filter_kind_nil _ _ _ (virtual_base_slots_kind _ _)) by (by intros ? [-> | ->]).
    rewrite !app_nil_r.
    apply (filter_kind_all _ _ _ (vtable_pointer_slots_kind _ _ _)). by intros ? [? _]. }
  pose proof (filter_kind_returned_layout context record VTablePtr) as Hperm.
  rewrite Hslots in Hperm.
  destruct (dyn_cast_CXXRecordDecl record) as [cxxRecord|].
  - unfold vtable_pointer_slots in Hperm.
    repeat case_match;
      by first [ apply Permutation_singleton_r in Hperm
               | apply Permutation_nil_r in Hperm ].
  - by apply Permutation_nil_r in Hperm.
Qed.

Lemma vtable_pointer_slot_of_layout_witness :
  filter (λ f, Kind f = VTablePtr)
    (FirstField (returned_layout (getCursorContext polymorphic_class_cursor)
                   polymorphic_class))
  = [mkField VTablePtr 0 (createRef "vtable_pointer")
       (MakeCXType (PointerType VoidPtrTy)) CXCursor_zero false 0 0 false].
Proof.
  exact (vtable_pointer_slot_of_layout polymorphic_class_cursor _ polymorphic_class
           eq_refl eq_refl).
Defined.

Lemma non_virtual_base_slots_fmap layout bs :
  bs ≫= non_virtual_base_slots layout =
  (λ base,
     let baseRecord := getAsCXXRecordDecl (getType base) in
     let isPrimary := bool_decide (baseRecord = getPrimaryBase layout) in
     mkField NonVirtualBase (getBaseClassOffset layout baseRecord)
       (createRef (if isPrimary then "primary_base" else "base"))
       (MakeCXType (getType base)) CXCursor_zero false 0 0 isPrimary)
    <$> filter (λ base, isVirtual base = false) bs.
Proof.
  induction bs as [|base bs IH]; [done|].
  cbn [mbind list_bind]. fold (bs ≫= non_virtual_base_slots layout). rewrite IH.
  unfold non_virtual_base_slots at 1.
  destruct (isVirtual base) eqn:Hvirtual.
  - by rewrite filter_cons_False by (by rewrite Hvirtual).
  - by rewrite filter_cons_True by done.
Qed.

(** X5.  The [NonVirtualBase] slots of the layout of a class are those of
    its direct bases that are not virtual, one for each: at the offset the
    layout gives for the base, of the type of the base, named
    "primary_base" and flagged [IsPrimaryBase] when the base is the primary
    base and named "base" otherwise.  Virtual bases among the direct bases
    give no such slot. *)
Theorem non_virtual_base_slots_of_layout
    (cursor : CXCursor) (ret : PathogenRecordLayout)
    (record : RecordDecl) (cxxRecord : CXXRecordDecl)
    (Hret : pathogen_GetRecordLayout cursor = Some ret)
    (Hrecord : getCursorDecl cursor = Some (Decl_Record record))
    (Hcxx : dyn_cast_CXXRecordDecl record = Some cxxRecord) :
  let layout := getASTRecordLayout (getCursorContext cursor) in
  filter (λ f, Kind f = NonVirtualBase) (FirstField ret) ≡ₚ
  (λ base,
     let baseRecord := getAsCXXRecordDecl (getType base) in
     let isPrimary := bool_decide (baseRecord = getPrimaryBase layout) in
     mkField NonVirtualBase (getBaseClassOffset layout baseRecord)
       (createRef (if isPrimary then "primary_base" else "base"))
       (MakeCXType (getType base)) CXCursor_zero false 0 0 isPrimary)
    <$> filter (λ base, isVirtual base = false) (bases cxxRecord).
Proof.
  intros layout.
  rewrite (GetRecordLayout_returned _ _ _ Hret Hrecord).
  rewrite filter_kind_returned_layout.
  unfold slots_before_virtual_bases, slots_of_virtual_bases. rewrite Hcxx. fold layout.
  rewrite !filter_app.
  rewrite (filter_kind_nil _ _ _ (vtable_pointer_slots_kind _ _ _)) by (by intros ? [-> _]).
  rewrite (filter_kind_nil _ _ _ (vbtable_pointer_slots_kind _)) by (by intros ? ->).
  rewrite (filter_kind_nil _ _ _ (normal_field_slots_kind _ _ _ _)) by (by intros ? ->).
  rewrite (filter_kind_nil _ _ _ (virtual_base_slots_kind _ _)) by (by intros ? [-> | ->]).
  rewrite (filter_kind_all _ _ _ (non_virtual_base_slots_kind _ _)) by done.
  rewrite !app_nil_r. simpl.
  by rewrite non_virtual_base_slots_fmap.
Qed.

Lemma non_virtual_base_slots_of_layout_witness :
  filter (λ f, Kind f = NonVirtualBase)
    (FirstField (returned_layout microsoft_class_context microsoft_class)) ≡ₚ
  [mkField NonVirtualBase 0 (createRef "primary_base") (MakeCXType (RecordType 50))
     CXCursor_zero false 0 0 true].
Proof.
  exact (non_virtual_base_slots_of_layout microsoft_class_cursor _ microsoft_class _
           eq_refl eq_refl eq_refl).
Defined.

(** X6.  A layout has a [VirtualBaseTablePtr] slot exactly when the record
    is a C++ record whose layout has a vbptr of its own; there is one such
    slot then, at the offset of the vbptr, of type [void*] and named
    "vbtable_pointer". *)
Theorem vbtable_pointer_slot_of_layout
    (cursor : CXCursor) (ret : PathogenRecordLayout) (record : RecordDecl)
    (Hret : pathogen_GetRecordLayout cursor = Some ret)
    (Hrecord : getCursorDecl cursor = Some (Decl_Record record)) :
  let layout := getASTRecordLayout (getCursorContext cursor) in
  filter (λ f, Kind f = VirtualBaseTablePtr) (FirstField ret) =
  match dyn_cast_CXXRecordDecl record with
  | Some _ =>
      if hasOwnVBPtr layout
      then [mkField VirtualBaseTablePtr (getVBPtrOffset layout)
              (createRef "vbtable_pointer") (MakeCXType VoidPtrTy)
              CXCursor_zero false 0 0 false]
      else []
  | None => []
  end.
Proof.
  intros layout.
  rewrite (GetRecordLayout_returned _ _ _ Hret Hrecord).
  pose proof (filter_kind_returned_layout (getCursorContext cursor) record
                VirtualBaseTablePtr) as Hperm.
  unfold slots_before_virtual_bases, slots_of_virtual_bases in Hperm. fold layout in Hperm.
  rewrite !filter_app in Hperm.
  rewrite (filter_kind_nil _ _ _ (normal_field_slots_kind _ _ _ _)) in Hperm
    by (by intros ? ->).
  destruct (dyn_cast_CXXRecordDecl record) as [cxxRecord|].
  - rewrite !filter_app in Hperm.
    rewrite (filter_kind_nil _ _ _ (vtable_pointer_slots_kind _ _ _)) in Hperm
      by (by intros ? [-> _]).
    rewrite (filter_kind_nil _ _ _ (non_virtual_base_slots_kind _ _)) in Hperm
      by (by intros ? ->).
    rewrite (filter_kind_nil _ _ _ (virtual_base_slots_kind _ _)) in Hperm
      by (by intros ? [-> | ->]).
    rewrite (filter_kind_all _ _ _ (vbtable_pointer_slots_kind _)) in Hperm by done.
    rewrite !app_nil_r in Hperm. simpl in Hperm.
    unfold vbtable_pointer_slots in Hperm.
    destruct (hasOwnVBPtr layout);
      by first [ apply Permutation_singleton_r in Hperm
               | apply Permutation_nil_r in Hperm ].
  - by apply Permutation_nil_r in Hperm.
Qed.

Lemma vbtable_pointer_slot_of_layout_witness :
  filter (λ f, Kind f = VirtualBaseTablePtr)
    (FirstField (returned_layout microsoft_class_context microsoft_class))
  = [mkField VirtualBaseTablePtr 8 (createRef "vbtable_pointer") (MakeCXType VoidPtrTy)
       CXCursor_zero false 0 0 false].
Proof.
  exact (vbtable_pointer_slot_of_layout microsoft_class_cursor _ microsoft_class
           eq_refl eq_refl).
Defined.

Lemma normal_field_slot_eq context layout fieldIndex field :
  normal_field_slot context layout fieldIndex field =
  let offsetBits := getFieldOffset layout fieldIndex in
  let offsetChars := toCharUnitsFromBits context offsetBits in
  mkField Normal offsetChars (createDup (getName field))
    (MakeCXType (field_getType field)) (MakeCXCursor (Some (field_decl field)))
    (isBitField field)
    (if isBitField field
     then unsigned_int (uint64_t (offsetBits - uint64_t (toBits context offsetChars)))
     else 0)
    (if isBitField field then getBitWidthValue field else 0)
    false.
Proof. unfold normal_field_slot. by destruct (isBitField field). Qed.

Lemma normal_field_slots_imap context layout fieldIndex fs :
  normal_field_slots context layout fieldIndex fs =
  imap (λ i field, normal_field_slot context layout (fieldIndex + i) field) fs.
Proof.
  revert fieldIndex. induction fs as [|field fs IH]; intros fieldIndex; [done|].
  simpl. rewrite Nat.add_0_r. f_equal. rewrite IH.
  apply imap_ext. intros i f _. simpl. f_equal. lia.
Qed.

Lemma filter_normal_slots context record :
  filter (λ f, Kind f = Normal)
    (slots_before_virtual_bases context record ++ slots_of_virtual_bases context record)
  = normal_field_slots context (getASTRecordLayout context) 0 (fields record).
Proof.
  unfold slots_before_virtual_bases, slots_of_virtual_bases.
  rewrite !filter_app.
  rewrite (filter_kind_all _ _ _ (normal_field_slots_kind _ _ _ _)) by done.
  destruct (dyn_cast_CXXRecordDecl record) as [cxxRecord|];
    [|simpl; by rewrite app_nil_r].
  rewrite (filter_kind_nil _ _ _ (cxx_slots_kind _ _ _)) by done.
  rewrite (filter_kind_nil _ _ _ (virtual_base_slots_kind _ _)) by (by intros ? [-> | ->]).
  by rewrite app_nil_r.
Qed.

(** X7.  The [Normal] slots of a layout are those of the declared fields,
    one for each field: at the byte of the field's bit offset, with a copy
    of the field's name, the field's type and a cursor to its declaration,
    flagged a bit-field when the field is one, with the bit-field placement
    zero when it is not, and never flagged a primary base. *)
Theorem normal_slots_of_layout
    (cursor : CXCursor) (ret : PathogenRecordLayout) (record : RecordDecl)
    (Hret : pathogen_GetRecordLayout cursor = Some ret)
    (Hrecord : getCursorDecl cursor = Some (Decl_Record record)) :
  let context := getCursorContext cursor in
  let layout := getASTRecordLayout context in
  filter (λ f, Kind f = Normal) (FirstField ret) ≡ₚ
  imap
    (λ fieldIndex field,
       let offsetBits := getFieldOffset layout fieldIndex in
       let offsetChars := toCharUnitsFromBits context offsetBits in
       mkField Normal offsetChars (createDup (getName field))
         (MakeCXType (field_getType field)) (MakeCXCursor (Some (field_decl field)))
         (isBitField field)
         (if isBitField field
          then unsigned_int (uint64_t (offsetBits - uint64_t (toBits context offsetChars)))
          else 0)
         (if isBitField field then getBitWidthValue field else 0)
         false)
    (fields record).
Proof.
  intros context layout.
  rewrite (GetRecordLayout_returned _ _ _ Hret Hrecord).
  rewrite filter_kind_returned_layout, filter_normal_slots, normal_field_slots_imap.
  apply eq_subrelation; [apply _|].
  apply imap_ext. intros i field _. simpl. apply normal_field_slot_eq.
Qed.

Lemma normal_slots_of_layout_witness :
  filter (λ f, Kind f = Normal)
    (FirstField (returned_layout (getCursorContext wide_bitfield_cursor)
                   wide_bitfield_struct)) ≡ₚ
  [mkField Normal 0 (createDup "a") (MakeCXType int_type) (MakeCXCursor (Some 21))
     true 0 20 false;
   mkField Normal 2 (createDup "b") (MakeCXType int_type) (MakeCXCursor (Some 22))
     true 4 3 false].
Proof.
  exact (normal_slots_of_layout wide_bitfield_cursor _ wide_bitfield_struct
           eq_refl eq_refl).
Defined.

Lemma normal_field_slots_sorted context layout fieldIndex fs :
  (∀ i j, fieldIndex ≤ i → i ≤ j → j < fieldIndex + length fs →
     (toCharUnitsFromBits context (getFieldOffset layout i)
      ≤ toCharUnitsFromBits context (getFieldOffset layout j))%Z) →
  StronglySorted offset_le (normal_field_slots context layout fieldIndex fs).
Proof.
  revert fieldIndex. induction fs as [|field fs IH]; intros fieldIndex Hmono; simpl.
  - constructor.
  - constructor.
    + apply IH. intros i j Hi Hij Hj. apply Hmono; simpl; lia.
    + apply Forall_forall. intros f Hf.
      apply elem_of_normal_field_slots in Hf as (i & field' & Hi & ->).
      apply lookup_lt_Some in Hi.
      unfold offset_le. rewrite !normal_field_slot_eq. simpl.
      apply Hmono; simpl; lia.
Qed.

Lemma foldl_insert_field_not_normal fs l :
  Forall (λ f, Kind f ≠ Normal) fs →
  filter (λ f, Kind f = Normal) (foldl insert_field l fs) = filter (λ f, Kind f = Normal) l.
Proof. apply (filter_foldl_insert_field_other (λ f, Kind f = Normal)). Qed.

(** X8.  When the byte offsets of the declared fields do not decrease from
    one field to the next, the [Normal] slots stand in the layout in the
    order of declaration, bit-fields that share a byte included: the list of
    the [Normal] slots is that of the declared fields, index by index. *)
Theorem normal_slots_in_declaration_order
    (cursor : CXCursor) (ret : PathogenRecordLayout) (record : RecordDecl)
    (Hret : pathogen_GetRecordLayout cursor = Some ret)
    (Hrecord : getCursorDecl cursor = Some (Decl_Record record))
    (Hmono :
       ∀ i j, i ≤ j → j < length (fields record) →
         (toCharUnitsFromBits (getCursorContext cursor)
            (getFieldOffset (getASTRecordLayout (getCursorContext cursor)) i)
          ≤ toCharUnitsFromBits (getCursorContext cursor)
              (getFieldOffset (getASTRecordLayout (getCursorContext cursor)) j))%Z) :
  FieldDeclaration <$> filter (λ f, Kind f = Normal) (FirstField ret)
  = (λ field, MakeCXCursor (Some (field_decl field))) <$> fields record
  ∧ ∀ fieldIndex field,
      fields record !! fieldIndex = Some field →
      ∃ f, filter (λ f, Kind f = Normal) (FirstField ret) !! fieldIndex = Some f
        ∧ FieldDeclaration f = MakeCXCursor (Some (field_decl field))
        ∧ Name f = createDup (getName field)
        ∧ Offset f = toCharUnitsFromBits (getCursorContext cursor)
                       (getFieldOffset (getASTRecordLayout (getCursorContext cursor))
                          fieldIndex)
        ∧ IsBitField f = isBitField field.
Proof.
  rewrite (GetRecordLayout_returned _ _ _ Hret Hrecord).
  set (context := getCursorContext cursor) in *.
  set (layout := getASTRecordLayout context) in *.
  assert (filter (λ f, Kind f = Normal) (FirstField (returned_layout context record))
          = normal_field_slots context layout 0 (fields record)) as ->.
  { unfold returned_layout, slots_before_virtual_bases, slots_of_virtual_bases. simpl.
    fold layout. rewrite !foldl_app.
    assert (Forall (λ f, Kind f ≠ Normal)
              match dyn_cast_CXXRecordDecl record with
              | Some cxxRecord => vbases cxxRecord ≫= virtual_base_slots layout
              | None => []
              end) as Hvirtual.
    { destruct (dyn_cast_CXXRecordDecl record); [|constructor].
      eapply Forall_impl; [apply virtual_base_slots_kind|]. simpl. by intros f [-> | ->]. }
    rewrite (foldl_insert_field_not_normal _ _ Hvirtual).
    set (before := foldl insert_field [] _).
    assert (fields_ordered before) as Hordered
      by (apply foldl_insert_field_ordered; constructor).
    assert (filter (λ f, Kind f = Normal) before = []) as Hbefore.
    { unfold before. destruct (dyn_cast_CXXRecordDecl record) as [cxxRecord|]; [|done].
      by rewrite (foldl_insert_field_not_normal _ _ (cxx_slots_kind _ _ _)). }
    rewrite (filter_foldl_insert_field_behind (λ f, Kind f = Normal)); try done.
    - by rewrite Hbefore.
    - apply normal_field_slots_kind.
    - apply normal_field_slots_sorted. intros i j _ Hij Hj. apply Hmono; simpl in *; lia.
    - intros g f Hg Hkind _. exfalso.
      assert (g ∈ filter (λ f, Kind f = Normal) before) as Hin
        by (by apply list_elem_of_filter).
      rewrite Hbefore in Hin. by apply elem_of_nil in Hin. }
  rewrite normal_field_slots_imap. split.
  - rewrite fmap_imap. rewrite <- (imap_const _ (fields record)).
    apply imap_ext. intros i field _. simpl. by rewrite normal_field_slot_eq.
  - intros fieldIndex field Hfield.
    exists (normal_field_slot context layout fieldIndex field).
    rewrite list_lookup_imap, Hfield. simpl.
    rewrite !normal_field_slot_eq. by simpl.
Qed.

Lemma normal_slots_in_declaration_order_witness :
  FieldDeclaration
    <$> filter (λ f, Kind f = Normal)
          (FirstField (returned_layout (getCursorContext wide_bitfield_cursor)
                         wide_bitfield_struct))
  = [MakeCXCursor (Some 21); MakeCXCursor (Some 22)].
Proof.
  refine (proj1 (normal_slots_in_declaration_order wide_bitfield_cursor _
                   wide_bitfield_struct eq_refl eq_refl _)).
  intros [|[|i]] [|[|j]] Hij Hj; simpl in *; try lia; vm_compute; discriminate.
Defined.

(** ** Metrics and tables of the layout returned *)

(** X9.  The size and the alignment of the layout returned are those of
    the record layout; [IsCppRecord] tells whether the record is a C++
    record, and the non-virtual size and alignment are those of the record
    layout for a C++ record and 0 otherwise.  No later pass changes them. *)
Theorem metrics_of_layout
    (cursor : CXCursor) (ret : PathogenRecordLayout) (record : RecordDecl)
    (Hret : pathogen_GetRecordLayout cursor = Some ret)
    (Hrecord : getCursorDecl cursor = Some (Decl_Record record)) :
  let layout := getASTRecordLayout (getCursorContext cursor) in
  Size ret = getSize layout
  ∧ Alignment ret = getAlignment layout
  ∧ (IsCppRecord ret = true ↔ is_Some (dyn_cast_CXXRecordDecl record))
  ∧ NonVirtualSize ret
    = (if IsCppRecord ret then getNonVirtualSize layout else 0%Z)
  ∧ NonVirtualAlignment ret
    = (if IsCppRecord ret then getNonVirtualAlignment layout else 0%Z).
Proof.
  intros layout.
  rewrite (GetRecordLayout_returned _ _ _ Hret Hrecord).
  unfold returned_layout. simpl.
  destruct (dyn_cast_CXXRecordDecl record); split_and!; done.
Qed.

Lemma metrics_of_layout_witness :
  let ret := returned_layout microsoft_class_context microsoft_class in
  Size ret = 48%Z ∧ Alignment ret = 8%Z
  ∧ (IsCppRecord ret = true ↔ is_Some (dyn_cast_CXXRecordDecl microsoft_class))
  ∧ NonVirtualSize ret = 24%Z ∧ NonVirtualAlignment ret = 8%Z.
Proof.
  exact (metrics_of_layout microsoft_class_cursor _ microsoft_class eq_refl eq_refl).
Defined.

(** X10.  When the vtable context is not Microsoft's, the layout of a C++
    record has one table, the one made of the vtable layout the Itanium
    context gives for the record. *)
Theorem itanium_vtable_of_layout
    (cursor : CXCursor) (ret : PathogenRecordLayout)
    (record : RecordDecl) (cxxRecord : CXXRecordDecl)
    (Hret : pathogen_GetRecordLayout cursor = Some ret)
    (Hrecord : getCursorDecl cursor = Some (Decl_Record record))
    (Hcxx : dyn_cast_CXXRecordDecl record = Some cxxRecord)
    (Hvtables : getVTableContext_isMicrosoft (getCursorContext cursor) = false) :
  FirstVTable ret = [PathogenVTable.new (getVTableLayout (getCursorContext cursor))].
Proof.
  rewrite (GetRecordLayout_returned _ _ _ Hret Hrecord).
  unfold returned_layout, vtable_layouts. simpl. by rewrite Hcxx, Hvtables.
Qed.

Lemma itanium_vtable_of_layout_witness :
  FirstVTable (returned_layout (getCursorContext polymorphic_class_cursor)
                 polymorphic_class)
  = [PathogenVTable.new
       [MakeOffsetToTop 0; MakeRTTI (Some 40); MakeFunction (Some 42)]].
Proof.
  exact (itanium_vtable_of_layout polymorphic_class_cursor _ polymorphic_class _
           eq_refl eq_refl eq_refl eq_refl).
Defined.

(** ** The vtordisp of a virtual base stands before the base *)

Lemma ordered_before l f g :
  fields_ordered l → f ∈ l → g ∈ l → (Offset f < Offset g)%Z →
  ∃ l1 l2 l3, l = l1 ++ f :: l2 ++ g :: l3.
Proof.
  intros Hl Hf Hg Hlt.
  apply list_elem_of_split in Hf as (l1 & l' & ->).
  apply StronglySorted_offset_le in Hl.
  apply elem_of_app in Hg as [Hg | Hg].
  - exfalso.
    pose proof (StronglySorted_app_1_elem_of _ _ _ g f Hl Hg ltac:(by left)) as Hle.
    unfold offset_le in Hle. lia.
  - apply elem_of_cons in Hg as [-> | Hg]; [lia|].
    apply list_elem_of_split in Hg as (l2 & l3 & ->).
    by exists l1, l2, l3.
Qed.

(** X11.  In the list of fields the [VTorDisp] slot of a virtual base
    stands before the [VirtualBase] slot of that base, the offset of the
    base being one 4 can be taken from. *)
Theorem vtordisp_before_virtual_base
    (cursor : CXCursor) (ret : PathogenRecordLayout)
    (record : RecordDecl) (cxxRecord : CXXRecordDecl) (base : CXXBaseSpecifier)
    (Hret : pathogen_GetRecordLayout cursor = Some ret)
    (Hrecord : getCursorDecl cursor = Some (Decl_Record record))
    (Hcxx : dyn_cast_CXXRecordDecl record = Some cxxRecord)
    (Hbase : base ∈ vbases cxxRecord)
    (Hdisp :
       getVBaseOffsetsMap_hasVtorDisp (getASTRecordLayout (getCursorContext cursor))
         (getAsCXXRecordDecl (getType base)) = true)
    (Hrange :
       (INT64_MIN + 4 ≤
          getVBaseClassOffset (getASTRecordLayout (getCursorContext cursor))
            (getAsCXXRecordDecl (getType base)) ≤ INT64_MAX)%Z) :
  let layout := getASTRecordLayout (getCursorContext cursor) in
  let vbase := getAsCXXRecordDecl (getType base) in
  let offset := getVBaseClassOffset layout vbase in
  let isPrimary := bool_decide (vbase = getPrimaryBase layout) in
  ∃ l1 l2 l3,
    FirstField ret =
      l1 ++ mkField VTorDisp (offset - 4) (createRef "vtordisp")
              (MakeCXType (getType base)) CXCursor_zero false 0 0 false
         :: l2
         ++ mkField VirtualBase offset
              (createRef (if isPrimary then "primary_virtual_base" else "virtual_base"))
              (MakeCXType (getType base)) CXCursor_zero false 0 0 isPrimary
         :: l3.
Proof.
  cbv zeta.
  rewrite (GetRecordLayout_returned _ _ _ Hret Hrecord).
  set (layout := getASTRecordLayout (getCursorContext cursor)) in *.
  assert (∀ f, f ∈ virtual_base_slots layout base →
               f ∈ FirstField (returned_layout (getCursorContext cursor) record)) as Hin.
  { intros f Hf. rewrite returned_layout_fields_perm.
    apply elem_of_app. right. unfold slots_of_virtual_bases. rewrite Hcxx.
    apply list_elem_of_bind. by exists base. }
  set (offset := getVBaseClassOffset layout (getAsCXXRecordDecl (getType base))) in *.
  assert (int64_t (offset - 4) = (offset - 4)%Z) as Hsub.
  { apply int64_t_id. unfold INT64_MIN, INT64_MAX in *. lia. }
  apply ordered_before.
  - apply returned_layout_ordered.
  - apply Hin. unfold virtual_base_slots. rewrite Hdisp.
    unfold vtordisp_slot. fold offset. rewrite Hsub. by left.
  - apply Hin. unfold virtual_base_slots.
    apply elem_of_app. right. by left.
  - simpl. lia.
Qed.

Lemma vtordisp_before_virtual_base_witness :
  ∃ l1 l2 l3,
    FirstField (returned_layout microsoft_class_context microsoft_class) =
      l1 ++ mkField VTorDisp 24 (createRef "vtordisp") (MakeCXType (RecordType 51))
              CXCursor_zero false 0 0 false
         :: l2
         ++ mkField VirtualBase 28 (createRef "virtual_base") (MakeCXType (RecordType 51))
              CXCursor_zero false 0 0 false
         :: l3.
Proof.
  refine (vtordisp_before_virtual_base microsoft_class_cursor _ microsoft_class _
            (mkBase true (RecordType 51)) eq_refl eq_refl eq_refl _ eq_refl _).
  - apply list_elem_of_In. simpl. left. reflexivity.
  - vm_compute. split; discriminate.
Defined.

(** ** Entries and tables *)

(** X12.  An entry holds the payload of its component in the member that
    goes with its kind, and zero in the members that do not: an offset kind
    has the offset and no cursor, [RTTI] has the RTTI cursor only, a
    function kind has the method cursor only. *)
Theorem entry_members_of_kind (component : VTableComponent) :
  let e := PathogenVTableEntry.new component in
  match PathogenVTableEntry.Kind e with
  | VCallOffset =>
      PathogenVTableEntry.Offset e = getVCallOffset component
      ∧ PathogenVTableEntry.MethodDeclaration e = CXCursor_zero
      ∧ PathogenVTableEntry.RttiType e = CXCursor_zero
  | VBaseOffset =>
      PathogenVTableEntry.Offset e = getVBaseOffset component
      ∧ PathogenVTableEntry.MethodDeclaration e = CXCursor_zero
      ∧ PathogenVTableEntry.RttiType e = CXCursor_zero
  | OffsetToTop =>
      PathogenVTableEntry.Offset e = getOffsetToTop component
      ∧ PathogenVTableEntry.MethodDeclaration e = CXCursor_zero
      ∧ PathogenVTableEntry.RttiType e = CXCursor_zero
  | RTTI =>
      PathogenVTableEntry.RttiType e = MakeCXCursor (getRTTIDecl component)
      ∧ PathogenVTableEntry.MethodDeclaration e = CXCursor_zero
      ∧ PathogenVTableEntry.Offset e = 0%Z
  | FunctionPointer | CompleteDestructorPointer
  | DeletingDestructorPointer | UnusedFunctionPointer =>
      PathogenVTableEntry.MethodDeclaration e = MakeCXCursor (getFunctionDecl component)
      ∧ PathogenVTableEntry.RttiType e = CXCursor_zero
      ∧ PathogenVTableEntry.Offset e = 0%Z
  end.
Proof. by destruct component. Qed.

(** X13.  The translation of a component loses nothing: two components
    with the same entry are the same component. *)
Theorem entry_of_component_injective (c1 c2 : VTableComponent)
    (Hentry : PathogenVTableEntry.new c1 = PathogenVTableEntry.new c2) :
  c1 = c2.
Proof. destruct c1, c2; simpl in Hentry; by simplify_eq. Qed.

Lemma entry_of_component_injective_witness :
  MakeDeletingDtor (Some 57) = MakeDeletingDtor (Some 57).
Proof.
  exact (entry_of_component_injective (MakeDeletingDtor (Some 57))
           (MakeDeletingDtor (Some 57)) eq_refl).
Defined.

Lemma int32_t_id z : (- 2 ^ 31 ≤ z < 2 ^ 31)%Z → int32_t z = z.
Proof. intros Hz. apply to_signed_id; [done|]. simpl. lia. Qed.

(** X14.  For a vtable layout of fewer than 2^31 components, the table has
    an entry for each component, in the order of the components, and
    [EntryCount] is their number. *)
Theorem vtable_of_layout (layout : VTableLayout)
    (Hsize : (Z.of_nat (length layout) < 2 ^ 31)%Z) :
  let vTable := PathogenVTable.new layout in
  PathogenVTable.EntryCount vTable = Z.of_nat (length layout)
  ∧ PathogenVTable.Entries vTable = PathogenVTableEntry.new <$> layout
  ∧ Z.of_nat (length (PathogenVTable.Entries vTable)) = PathogenVTable.EntryCount vTable
  ∧ ∀ i component,
      layout !! i = Some component →
      PathogenVTable.Entries vTable !! i = Some (PathogenVTableEntry.new component).
Proof.
  simpl. rewrite int32_t_id by lia. rewrite Nat2Z.id, firstn_all.
  split_and!; [done | done | by rewrite length_fmap |].
  intros i component Hi. rewrite list_lookup_fmap.
  by apply fmap_Some_2.
Qed.

Lemma vtable_of_layout_witness :
  let vTable := PathogenVTable.new [MakeOffsetToTop 0; MakeRTTI (Some 40)] in
  PathogenVTable.EntryCount vTable = 2%Z
  ∧ PathogenVTable.Entries vTable
    = [PathogenVTableEntry.mk OffsetToTop CXCursor_zero CXCursor_zero 0;
       PathogenVTableEntry.mk RTTI CXCursor_zero (MakeCXCursor (Some 40)) 0].
Proof.
  assert (Z.lt (Z.of_nat (length [MakeOffsetToTop 0; MakeRTTI (Some 40)])) (2 ^ 31)%Z)
    as Hsize by (simpl; lia).
  destruct (vtable_of_layout _ Hsize) as (Hcount & Hentries & _).
  split; [exact Hcount | exact Hentries].
Defined.

(** ** The size introspection, again *)

(** X15.  [pathogen_GetTypeSizes] never writes the first member of the
    buffer, its flag and what it writes do not depend on what the four
    other members held, and a second call on the buffer it left returns the
    same flag and leaves the buffer as it is. *)
Theorem GetTypeSizes_again (target : TargetSizes) (sizes : PathogenTypeSizes.t) :
  let '(result, written) := pathogen_GetTypeSizes target sizes in
  PathogenTypeSizes.PathogenTypeSizes written = PathogenTypeSizes.PathogenTypeSizes sizes
  ∧ pathogen_GetTypeSizes target written = (result, written)
  ∧ ∀ a b c d,
      let '(result', written') :=
        pathogen_GetTypeSizes target
          (PathogenTypeSizes.mk (PathogenTypeSizes.PathogenTypeSizes sizes) a b c d) in
      result' = result
      ∧ (result = true → written' = written).
Proof.
  unfold pathogen_GetTypeSizes.
  destruct (negb _) eqn:Hcmp; simpl; rewrite Hcmp; simpl; by repeat split.
Qed.

(** ** The primary base *)

Lemma filter_non_virtual_base_returned context record cxxRecord :
  dyn_cast_CXXRecordDecl record = Some cxxRecord →
  filter (λ f, Kind f = NonVirtualBase) (FirstField (returned_layout context record)) ≡ₚ
  bases cxxRecord ≫= non_virtual_base_slots (getASTRecordLayout context).
Proof.
  intros Hcxx. rewrite filter_kind_returned_layout.
  unfold slots_before_virtual_bases, slots_of_virtual_bases. rewrite Hcxx.
  rewrite !filter_app.
  rewrite (filter_kind_nil _ _ _ (vtable_pointer_slots_kind _ _ _)) by (by intros ? [-> _]).
  rewrite (filter_kind_nil _ _ _ (vbtable_pointer_slots_kind _)) by (by intros ? ->).
  rewrite (filter_kind_nil _ _ _ (normal_field_slots_kind _ _ _ _)) by (by intros ? ->).
  rewrite (filter_kind_nil _ _ _ (virtual_base_slots_kind _ _)) by (by intros ? [-> | ->]).
  rewrite (filter_kind_all _ _ _ (non_virtual_base_slots_kind _ _)) by done.
  by rewrite !app_nil_r.
Qed.

Lemma filter_virtual_base_returned context record cxxRecord :
  dyn_cast_CXXRecordDecl record = Some cxxRecord →
  filter (λ f, Kind f = VirtualBase) (FirstField (returned_layout context record)) ≡ₚ
  virtual_base_slot (getASTRecordLayout context) <$> vbases cxxRecord.
Proof.
  intros Hcxx. rewrite filter_kind_returned_layout, filter_app.
  rewrite (filter_kind_nil _ _ _ (slots_before_virtual_bases_kind _ _))
    by (by intros ? [_ ?]).
  unfold slots_of_virtual_bases. rewrite Hcxx.
  by rewrite filter_virtual_base_slots.
Qed.

Lemma length_filter_fmap_NoDup {A} (g : A → DeclPtr) (G : A → PathogenRecordField)
    (P : PathogenRecordField → Prop) `{!∀ f, Decision (P f)} (y : DeclPtr) (l : list A) :
  NoDup (g <$> l) → (∀ x, P (G x) → g x = y) → length (filter P (G <$> l)) ≤ 1.
Proof.
  intros Hnodup HP. induction l as [|a l IH]; [simpl; lia|].
  rewrite fmap_cons in Hnodup. apply NoDup_cons in Hnodup as [Ha Hnodup].
  rewrite fmap_cons. destruct (decide (P (G a))) as [Hpa | Hpa].
  - rewrite filter_cons_True by done.
    assert (filter P (G <$> l) = []) as ->; [|simpl; lia].
    assert (Forall (λ f, ¬ P f) (G <$> l)) as Hnone.
    { apply Forall_fmap, Forall_forall. intros x Hx Hpx. apply Ha.
      apply list_elem_of_fmap. exists x. split; [|done].
      by rewrite (HP a Hpa), (HP x Hpx). }
    clear -Hnone. induction Hnone as [|f fs Hf _ IHfs]; [done|].
    by rewrite filter_cons_False.
  - rewrite filter_cons_False by done. by apply IH.
Qed.

(** X16.  When the direct bases that are not virtual are distinct classes,
    at most one [NonVirtualBase] slot of the layout is flagged the primary
    base; and when the virtual bases are distinct classes, at most one
    [VirtualBase] slot is. *)
Theorem at_most_one_primary_base
    (cursor : CXCursor) (ret : PathogenRecordLayout)
    (record : RecordDecl) (cxxRecord : CXXRecordDecl)
    (Hret : pathogen_GetRecordLayout cursor = Some ret)
    (Hrecord : getCursorDecl cursor = Some (Decl_Record record))
    (Hcxx : dyn_cast_CXXRecordDecl record = Some cxxRecord)
    (Hbases :
       NoDup ((λ base, getAsCXXRecordDecl (getType base))
                <$> filter (λ base, isVirtual base = false) (bases cxxRecord)))
    (Hvbases :
       NoDup ((λ base, getAsCXXRecordDecl (getType base)) <$> vbases cxxRecord)) :
  length (filter (λ f, IsPrimaryBase f = true)
            (filter (λ f, Kind f = NonVirtualBase) (FirstField ret))) ≤ 1
  ∧ length (filter (λ f, IsPrimaryBase f = true)
              (filter (λ f, Kind f = VirtualBase) (FirstField ret))) ≤ 1.
Proof.
  rewrite (GetRecordLayout_returned _ _ _ Hret Hrecord).
  set (layout := getASTRecordLayout (getCursorContext cursor)).
  split.
  - rewrite (filter_non_virtual_base_returned _ _ _ Hcxx), non_virtual_base_slots_fmap.
    apply (length_filter_fmap_NoDup (λ base, getAsCXXRecordDecl (getType base)) _ _
             (getPrimaryBase layout)); [done|].
    intros base. simpl. by intros ?%bool_decide_eq_true.
  - rewrite (filter_virtual_base_returned _ _ _ Hcxx).
    apply (length_filter_fmap_NoDup (λ base, getAsCXXRecordDecl (getType base)) _ _
             (getPrimaryBase layout)); [done|].
    intros base. unfold virtual_base_slot. simpl. by intros ?%bool_decide_eq_true.
Qed.

Lemma at_most_one_primary_base_witness :
  length (filter (λ f, IsPrimaryBase f = true)
            (filter (λ f, Kind f = NonVirtualBase)
               (FirstField (returned_layout microsoft_class_context microsoft_class)))) ≤ 1
  ∧ length (filter (λ f, IsPrimaryBase f = true)
              (filter (λ f, Kind f = VirtualBase)
                 (FirstField (returned_layout microsoft_class_context microsoft_class)))) ≤ 1.
Proof.
  apply (at_most_one_primary_base microsoft_class_cursor _ microsoft_class
           (mkCXXRecord true
              [mkBase false (RecordType 50); mkBase true (RecordType 51)]
              [mkBase true (RecordType 51); mkBase true (RecordType 52)]));
    try reflexivity.
  - apply (bool_decide_unpack _). vm_compute. exact I.
  - apply (bool_decide_unpack _). vm_compute. exact I.
Defined.

(** ** The names of the slots *)

(** X17.  The name of a slot goes with its kind: a [Normal] slot holds a
    copy it owns of the name of a declared field, and every other slot
    refers to a constant, "vtable_pointer" or "vftable_pointer", "base" or
    "primary_base" by the primary flag, "vbtable_pointer", "vtordisp",
    "virtual_base" or "primary_virtual_base" by the primary flag. *)
Theorem names_of_slots
    (cursor : CXCursor) (ret : PathogenRecordLayout) (record : RecordDecl)
    (f : PathogenRecordField)
    (Hret : pathogen_GetRecordLayout cursor = Some ret)
    (Hrecord : getCursorDecl cursor = Some (Decl_Record record))
    (Hin : f ∈ FirstField ret) :
  match Kind f with
  | Normal => ∃ field, field ∈ fields record ∧ Name f = createDup (getName field)
  | VTablePtr =>
      Name f = createRef "vtable_pointer" ∨ Name f = createRef "vftable_pointer"
  | NonVirtualBase =>
      Name f = createRef (if IsPrimaryBase f then "primary_base" else "base")
  | VirtualBaseTablePtr => Name f = createRef "vbtable_pointer"
  | VTorDisp => Name f = createRef "vtordisp"
  | VirtualBase =>
      Name f = createRef (if IsPrimaryBase f then "primary_virtual_base" else "virtual_base")
  end.
Proof.
  rewrite (GetRecordLayout_returned _ _ _ Hret Hrecord) in Hin.
  rewrite returned_layout_fields_perm in Hin.
  unfold slots_before_virtual_bases, slots_of_virtual_bases in Hin.
  rewrite !elem_of_app in Hin. destruct Hin as [[Hin | Hin] | Hin].
  - destruct (dyn_cast_CXXRecordDecl record) as [cxxRecord|];
      [|by apply elem_of_nil in Hin].
    rewrite !elem_of_app in Hin. destruct Hin as [Hin | [Hin | Hin]].
    + unfold vtable_pointer_slots in Hin.
      destruct (_ && _ && _); [|destruct (hasOwnVFPtr _)];
        first [ by apply elem_of_nil in Hin
              | apply list_elem_of_singleton in Hin as ->; simpl; auto ].
    + apply list_elem_of_bind in Hin as (base & Hin & _).
      unfold non_virtual_base_slots in Hin.
      destruct (isVirtual base); [by apply elem_of_nil in Hin|].
      apply list_elem_of_singleton in Hin as ->. done.
    + unfold vbtable_pointer_slots in Hin.
      case_match; [|by apply elem_of_nil in Hin].
      apply list_elem_of_singleton in Hin as ->. done.
  - apply elem_of_normal_field_slots in Hin as (i & field & Hi & ->).
    rewrite normal_field_slot_eq. simpl.
    exists field. split; [|done]. by eapply list_elem_of_lookup_2.
  - destruct (dyn_cast_CXXRecordDecl record) as [cxxRecord|];
      [|by apply elem_of_nil in Hin].
    apply list_elem_of_bind in Hin as (base & Hin & _).
    unfold virtual_base_slots in Hin.
    apply elem_of_app in Hin as [Hin | Hin].
    + destruct (getVBaseOffsetsMap_hasVtorDisp _ _); [|by apply elem_of_nil in Hin].
      apply list_elem_of_singleton in Hin as ->. done.
    + apply list_elem_of_singleton in Hin as ->. done.
Qed.

Lemma names_of_slots_witness :
  Name (mkField VirtualBase 40 (createRef "virtual_base") (MakeCXType (RecordType 52))
          CXCursor_zero false 0 0 false)
  = createRef "virtual_base".
Proof.
  refine (names_of_slots microsoft_class_cursor _ microsoft_class
            (mkField VirtualBase 40 (createRef "virtual_base") (MakeCXType (RecordType 52))
               CXCursor_zero false 0 0 false) eq_refl eq_refl _).
  apply list_elem_of_In. simpl. do 5 right. left. reflexivity.
Defined.

(** ** [AddVTableLayout] and the second [AddField] *)

(** X18.  [AddVTableLayout] returns the place of the table it made, which
    is the last of the chain; the tables linked before keep their places
    and the fields and the metrics of the layout are not touched. *)
Theorem AddVTableLayout_keeps_layout
    (layout : VTableLayout) (this : PathogenRecordLayout) :
  let '(this', vTable) := AddVTableLayout layout this in
  vTable = length (FirstVTable this)
  ∧ FirstVTable this' !! vTable = Some (PathogenVTable.new layout)
  ∧ (∀ i, i < length (FirstVTable this) → FirstVTable this' !! i = FirstVTable this !! i)
  ∧ length (FirstVTable this') = S (length (FirstVTable this))
  ∧ FirstField this' = FirstField this
  ∧ Size this' = Size this ∧ Alignment this' = Alignment this
  ∧ IsCppRecord this' = IsCppRecord this
  ∧ NonVirtualSize this' = NonVirtualSize this
  ∧ NonVirtualAlignment this' = NonVirtualAlignment this.
Proof.
  unfold AddVTableLayout. simpl.
  rewrite vtable_insertPoint_length, splice_end.
  split_and!; try reflexivity.
  - by rewrite lookup_app_r, Nat.sub_diag.
  - intros i Hi. by rewrite lookup_app_l.
  - rewrite length_app. simpl. lia.
Qed.

(** X19.  [AddField] for a field declaration links one node into an
    ordered list, in order: the node the pointer returned designates has
    the kind and offset given, a copy of the name of the field, the type of
    the field and a cursor to its declaration, and the other members
    zero. *)
Theorem AddField_decl_node
    (kind : PathogenRecordFieldKind) (offset : Z) (field : FieldDecl)
    (this : PathogenRecordLayout)
    (Hthis : fields_ordered (FirstField this)) :
  let node :=
    mkField kind offset (createDup (getName field)) (MakeCXType (field_getType field))
      (MakeCXCursor (Some (field_decl field))) false 0 0 false in
  let '(this', ret) := AddField_decl kind offset field this in
  FirstField this' !! ret = Some node
  ∧ fields_ordered (FirstField this')
  ∧ FirstField this' ≡ₚ node :: FirstField this
  ∧ FirstField this `sublist_of` FirstField this'.
Proof.
  rewrite AddField_decl_inserts. unfold inserts. simpl.
  split_and!.
  - apply splice_lookup, field_insertPoint_le.
  - by apply (insert_field_ordered _ (mkField _ _ _ _ _ _ _ _ _)).
  - apply splice_perm.
  - apply splice_sublist.
Qed.

Lemma AddField_decl_node_witness :
  let field := mkFieldDecl 12 "b" int_type false 0 in
  let node :=
    mkField Normal 4 (createDup "b") (MakeCXType int_type) (MakeCXCursor (Some 12))
      false 0 0 false in
  let '(this', ret) := AddField_decl Normal 4 field new_PathogenRecordLayout in
  FirstField this' !! ret = Some node
  ∧ fields_ordered (FirstField this')
  ∧ FirstField this' ≡ₚ node :: FirstField new_PathogenRecordLayout
  ∧ FirstField new_PathogenRecordLayout `sublist_of` FirstField this'.
Proof.
  apply (AddField_decl_node Normal 4 (mkFieldDecl 12 "b" int_type false 0)
           new_PathogenRecordLayout).
  constructor.
Defined.
